(** * awstats-processing: the ingestion pipeline of [awstats/urls.py]

    A shallow embedding of the script that reads AWStats summary files,
    decodes their SIDER section and merges the per-URL counters into a
    relational store, together with the properties its specification
    states about it.

    Layout of the development:
    - [Py]: the Python built-ins the script relies on ([bytes.decode],
      [str.strip], [str.split], [str.startswith], [int], slicing,
      [urllib.parse.unquote], line iteration over a binary file);
    - the store: the four tables the SQL statements read and write;
    - the functions of [urls.py], one definition per function, in the
      order of the source;
    - the properties.

    Modelling conventions.
    - A Python [str] is its list of code points, a [bytes] value its list
      of bytes; both are [list N].
    - [int] and the regular expression class [\d] are modelled on the
      ASCII digits; the decimal digits of other scripts, which Python also
      accepts, are outside the model.
    - A table with a unique key is a finite map from the key to the other
      columns.  SQL string comparison is taken to be exact equality,
      integer columns are unbounded, and the state is the one the cursor
      sees: commit and rollback belong to the storage engine.
    - The platform is a parameter of the development: the largest file
      offset that the file system accepts, and the conversion of a file's
      modification time into a naive local [datetime] (the float of
      [os.path.getmtime], its rounding to microseconds and the local
      time zone).  A [datetime] with a zero microsecond field, as stored
      in [file_tracking], is given by its whole seconds.
    - [--file] is taken to be a plain file name, looked up in the
      directory; a value with directory parts is outside the model. *)

From Stdlib Require Import String Ascii ZArith NArith List Bool Lia.
From stdpp Require Import base option list gmap fin_maps.

Local Open Scope Z_scope.

(** ** Python built-ins *)

Module Py.

Abbreviation str := (list N) (only parsing).
Abbreviation bytes := (list N) (only parsing).

(** A literal of the source, as code points. *)
Definition u (s : string) : list N :=
  List.map N_of_ascii (list_ascii_of_string s).

(** The exceptions that the modelled code can raise. *)
Inductive exn :=
| ValueError
| UnicodeDecodeError
| OSError
| NameError
| FileNotFoundError.

(** The outcome of an expression: a value or a raised exception. *)
Inductive res (A : Type) :=
| OK (a : A)
| Raise (e : exn).
Arguments OK {A} a.
Arguments Raise {A} e.

Definition rbind {A B} (r : res A) (k : A -> res B) : res B :=
  match r with
  | OK a => k a
  | Raise e => Raise e
  end.

Definition is_ok {A} (r : res A) : bool :=
  match r with OK _ => true | Raise _ => false end.

(** *** UTF-8 *)

(** A multi-byte sequence under way: continuation bytes needed after the
    next one, bits gathered so far, and the range allowed for the next
    byte. *)
Record pending := Pending { need : nat; acc : N; lo : N; hi : N }.

Inductive lead :=
| LChar (c : N)
| LSeq (p : pending)
| LBad.

Definition utf8_lead (b : N) : lead :=
  (if b <? 128 then LChar b
   else if (194 <=? b) && (b <=? 223) then LSeq (Pending 0 (b - 192) 128 191)
   else if b =? 224 then LSeq (Pending 1 0 160 191)
   else if b =? 237 then LSeq (Pending 1 13 128 159)
   else if (225 <=? b) && (b <=? 239) then LSeq (Pending 1 (b - 224) 128 191)
   else if b =? 240 then LSeq (Pending 2 0 144 191)
   else if (241 <=? b) && (b <=? 243) then LSeq (Pending 2 (b - 240) 128 191)
   else if b =? 244 then LSeq (Pending 2 4 128 143)
   else LBad)%N.

Definition replacement : N := 65533%N.

(** [bytes.decode('utf-8', errors)]: with [strict] an ill-formed
    sequence raises, otherwise each maximal ill-formed prefix becomes
    U+FFFD. *)
Fixpoint utf8_run (strict : bool) (st : option pending) (s : bytes)
  : res str :=
  let bad (k : res str) : res str :=
    if strict then Raise UnicodeDecodeError
    else rbind k (fun t => OK (replacement :: t)) in
  match s with
  | [] => match st with
          | None => OK []
          | Some _ => bad (OK [])
          end
  | b :: s' =>
      let fresh (_ : unit) : res str :=
        match utf8_lead b with
        | LChar c => rbind (utf8_run strict None s') (fun t => OK (c :: t))
        | LSeq p => utf8_run strict (Some p) s'
        | LBad => bad (utf8_run strict None s')
        end in
      match st with
      | None => fresh tt
      | Some p =>
          if ((lo p <=? b) && (b <=? hi p))%N then
            let a := (acc p * 64 + (b - 128))%N in
            match need p with
            | O => rbind (utf8_run strict None s') (fun t => OK (a :: t))
            | S n => utf8_run strict (Some (Pending n a 128 191)) s'
            end
          else bad (fresh tt)
      end
  end.

Definition decode_utf8 (s : bytes) : res str := utf8_run true None s.

Definition decode_utf8_replace (s : bytes) : str :=
  match utf8_run false None s with
  | OK t => t
  | Raise _ => []
  end.

(** *** Strings *)

(** [str.isspace] of one character. *)
Definition isspace (c : N) : bool :=
  ((9 <=? c) && (c <=? 13) || (28 <=? c) && (c <=? 32)
   || (c =? 133) || (c =? 160) || (c =? 5760)
   || (8192 <=? c) && (c <=? 8202) || (c =? 8232) || (c =? 8233)
   || (c =? 8239) || (c =? 8287) || (c =? 12288))%N.

Fixpoint lstrip (s : str) : str :=
  match s with
  | c :: s' => if isspace c then lstrip s' else s
  | [] => []
  end.

Definition strip (s : str) : str := rev (lstrip (rev (lstrip s))).

(** [s.split()]: the maximal runs of non-space characters. *)
Fixpoint split_go (cur : option str) (s : str) : list str :=
  match s with
  | [] => match cur with
          | Some w => [rev w]
          | None => []
          end
  | c :: s' =>
      if isspace c then
        match cur with
        | Some w => rev w :: split_go None s'
        | None => split_go None s'
        end
      else split_go (Some (c :: default [] cur)) s'
  end.

Definition split (s : str) : list str := split_go None s.

(** [s.split(sep)] for a one-character separator. *)
Fixpoint split_on (sep : N) (s : str) : list str :=
  match s with
  | [] => [[]]
  | c :: s' =>
      if (c =? sep)%N then [] :: split_on sep s'
      else match split_on sep s' with
           | w :: ws => (c :: w) :: ws
           | [] => [[c]]
           end
  end.

(** [sep.join(parts)]. *)
Fixpoint join (sep : str) (parts : list str) : str :=
  match parts with
  | [] => []
  | [w] => w
  | w :: ws => w ++ sep ++ join sep ws
  end.

Fixpoint startswith (s p : str) : bool :=
  match p, s with
  | [], _ => true
  | _ :: _, [] => false
  | a :: p', b :: s' => (a =? b)%N && startswith s' p'
  end.

Definition endswith (s p : str) : bool := startswith (rev s) (rev p).

(** [p in s] for strings. *)
Fixpoint contains (s p : str) : bool :=
  startswith s p ||
  match s with
  | [] => false
  | _ :: s' => contains s' p
  end.

(** [s[a:b]], [s[a:]] and [s[:-k]] for non-negative [a], [b], [k]. *)
Definition slice {A} (a b : nat) (s : list A) : list A :=
  take (b - a) (drop a s).
Definition slice_from {A} (a : nat) (s : list A) : list A := drop a s.
Definition drop_last {A} (k : nat) (s : list A) : list A :=
  take (length s - k) s.

(** *** [int] *)

Definition isdigit (c : N) : bool := ((48 <=? c) && (c <=? 57))%N.

(** Digits with single underscores between them. *)
Fixpoint int_digits (a : Z) (after_digit : bool) (s : str) : option Z :=
  match s with
  | [] => if after_digit then Some a else None
  | c :: s' =>
      if isdigit c then int_digits (a * 10 + (Z.of_N c - 48)) true s'
      else if (c =? 95)%N && after_digit then int_digits a false s'
      else None
  end.

Definition int_signed (s : str) : option Z :=
  match s with
  | c :: s' =>
      if (c =? 45)%N then Z.opp <$> int_digits 0 false s'
      else if (c =? 43)%N then int_digits 0 false s'
      else int_digits 0 false s
  | [] => None
  end.

(** The default of [sys.get_int_max_str_digits()]. *)
Definition int_max_str_digits : Z := 4300.

(** [int(s)] in base ten; a literal with more digits than the limit is a
    [ValueError] like a malformed one. *)
Definition int (s : str) : res Z :=
  match int_signed (strip s) with
  | Some n =>
      if int_max_str_digits
         <? Z.of_nat (length (List.filter isdigit (strip s)))
      then Raise ValueError
      else OK n
  | None => Raise ValueError
  end.

(** [map(int, parts)] consumed from left to right. *)
Fixpoint map_int (parts : list str) : res (list Z) :=
  match parts with
  | [] => OK []
  | p :: ps =>
      rbind (int p) (fun n => rbind (map_int ps) (fun ns => OK (n :: ns)))
  end.

(** *** [urllib.parse.unquote] *)

Definition hexval (c : N) : option N :=
  (if (48 <=? c) && (c <=? 57) then Some (c - 48)
   else if (65 <=? c) && (c <=? 70) then Some (c - 55)
   else if (97 <=? c) && (c <=? 102) then Some (c - 87)
   else None)%N.

(** [unquote_to_bytes]: every [%XX] with two hexadecimal digits becomes
    the byte it names; any other [%] is kept. *)
Fixpoint unquote_to_bytes (s : str) : bytes :=
  match s with
  | [] => []
  | c :: s' =>
      if (c =? 37)%N then
        match s' with
        | h1 :: h2 :: s'' =>
            match hexval h1, hexval h2 with
            | Some a, Some b => (16 * a + b)%N :: unquote_to_bytes s''
            | _, _ => c :: unquote_to_bytes s'
            end
        | _ => c :: unquote_to_bytes s'
        end
      else c :: unquote_to_bytes s'
  end.

Definition unquote_run (run : str) : str :=
  decode_utf8_replace (unquote_to_bytes (rev run)).

(** The ASCII runs of the string are unquoted and decoded with
    [errors='replace']; the other characters are kept. *)
Fixpoint unquote_go (run : str) (s : str) : str :=
  match s with
  | [] => unquote_run run
  | c :: s' =>
      if (c <? 128)%N then unquote_go (c :: run) s'
      else unquote_run run ++ c :: unquote_go [] s'
  end.

Definition unquote (s : str) : str := unquote_go [] s.

(** *** Binary files *)

(** [for line in file]: the lines from the current position, each with
    its terminating newline when it has one. *)
Fixpoint lines_go (cur : bytes) (s : bytes) : list bytes :=
  match s with
  | [] => match cur with
          | [] => []
          | _ :: _ => [rev cur]
          end
  | c :: s' =>
      if (c =? 10)%N then rev (c :: cur) :: lines_go [] s'
      else lines_go (c :: cur) s'
  end.

Definition readlines (s : bytes) : list bytes := lines_go [] s.

(** [file.seek(pos)] on a file opened with [open(path, 'rb')], followed
    by what remains to be read.  A position that does not fit a signed
    64-bit offset is a [ValueError], a negative one an [OSError].  A
    position inside the file is accepted; one past the end is accepted,
    and leaves nothing to read, as long as it is not past [max_offset],
    the largest offset of the file system, and is an [OSError]
    otherwise. *)
Definition seek (max_offset : Z) (content : bytes) (pos : Z) : res bytes :=
  if (pos <? - 2 ^ 63) || (2 ^ 63 <=? pos) then Raise ValueError
  else if pos <? 0 then Raise OSError
  else if (pos <=? Z.of_nat (length content)) || (pos <=? max_offset)
  then OK (drop (Z.to_nat pos) content)
  else Raise OSError.

End Py.

Import Py.

Notation "x <- c1 ;;; c2" := (rbind c1 (fun x => c2))
  (at level 100, c1 at next level, right associativity).

(** ** The platform *)

(** A naive [datetime]: the whole seconds of the local wall-clock time
    and the microsecond field. *)
Record datetime := mkDatetime { dt_second : Z; dt_microsecond : Z }.

Section Platform.

(** The largest offset that [lseek] accepts on the file system of the
    summary files. *)
Variable max_offset : Z.

(** [datetime.fromtimestamp(os.path.getmtime(path))] for a file whose
    modification time is the given number of nanoseconds: the float that
    [os.path.getmtime] returns, its rounding to microseconds and the
    conversion to local time are those of the platform. *)
Variable fromtimestamp : Z -> datetime.

(** ** The store *)

(** The columns of [website_url_stats] that are not part of its key. *)
Record stats := Stats { hits : Z; entry_count : Z; exit_count : Z }.

(** The columns of [file_tracking] that are not part of its key. *)
Record tracking := Tracking { col_last_modified : Z; col_processed_date : Z }.

(** The key of a [website_url_stats] row:
    (website_url_id, server_id, year, month). *)
Abbreviation stats_key := (Z * Z * Z * Z)%type (only parsing).

Definition key_url_id (k : stats_key) : Z := k.1.1.1.
Definition key_server_id (k : stats_key) : Z := k.1.1.2.
Definition key_year (k : stats_key) : Z := k.1.2.
Definition key_month (k : stats_key) : Z := k.2.

(** Modelled from the spec: the schema of the four tables, which is not
    part of the repository.  [websites] has a unique name, [website_url]
    has a generated [id] as its key and the columns (website_id, url),
    [website_url_stats] has the key (website_url_id, server_id, year,
    month) that its upsert relies on, and [file_tracking] has one row per
    (filename, server_id). *)
Record DB := mkDB {
  websites : gmap (list N) Z;
  website_url : gmap Z (Z * list N);
  website_url_stats : gmap (Z * Z * Z * Z) stats;
  file_tracking : gmap (list N * Z) tracking
}.

(** Statements run against the store: they read and write it, and either
    yield a value or raise. *)
Definition M (A : Type) : Type := DB -> res A * DB.

Definition ret {A} (a : A) : M A := fun db => (OK a, db).
Definition raise {A} (e : exn) : M A := fun db => (Raise e, db).
Definition bind {A B} (c : M A) (k : A -> M B) : M B :=
  fun db =>
    match c db with
    | (OK a, db') => k a db'
    | (Raise e, db') => (Raise e, db')
    end.
Definition lift {A} (r : res A) : M A := fun db => (r, db).
Definition get : M DB := fun db => (OK db, db).
Definition put (db : DB) : M unit := fun _ => (OK tt, db).

Notation "x <- c1 ;; c2" := (bind c1 (fun x => c2))
  (at level 100, c1 at next level, right associativity).
Notation "c1 ;; c2" := (bind c1 (fun _ => c2))
  (at level 100, right associativity).

(** [SELECT id FROM website_url WHERE website_id = w AND url = u],
    followed by [fetchone]. *)
Definition select_url_id (t : gmap Z (Z * list N)) (w : Z) (url : list N)
  : option Z :=
  fst <$> head (map_to_list (filter (fun kv => kv.2 = (w, url)) t)).

(** Modelled from the spec: [cursor.lastrowid] after an insert into
    [website_url], an identifier that no row of the table has.  The
    AUTO_INCREMENT counter of the table does not restart after a
    [DELETE]; the properties rely on the identifier being fresh, not on
    its value. *)
Definition lastrowid (t : gmap Z (Z * list N)) : Z :=
  1 + foldr Z.max 0 ((map_to_list t).*1).

(** The [website_url_id] values that occur in [website_url_stats]. *)
Definition referenced (st : gmap (Z * Z * Z * Z) stats) (id : Z) : bool :=
  bool_decide (id ∈ key_url_id <$> (map_to_list st).*1).

(** ** The file system *)

(** A summary file: its base name, its modification time in nanoseconds
    as the file system keeps it, and its bytes. *)
Record File := mkFile { f_name : list N; f_mtime : Z; f_content : list N }.

(** The directories and their entries. *)
Abbreviation FS := (list (list N * list File)) (only parsing).

Definition listdir (fs : FS) (directory : list N) : res (list File) :=
  match List.find (fun e => bool_decide (e.1 = directory)) fs with
  | Some e => OK e.2
  | None => Raise FileNotFoundError
  end.

(** [os.path.exists(os.path.join(directory, name))], and the file found
    there, for a [name] that is a plain file name: [os.path.join] would
    follow a [name] with [../] or an absolute [name] out of the
    directory. *)
Definition lookup_file (fs : FS) (directory name : list N) : option File :=
  match listdir fs directory with
  | OK entries =>
      List.find (fun f => bool_decide (f_name f = name)) entries
  | Raise _ => None
  end.

(** ** urls.py *)

(** The value of [has_file_been_processed]: [None] or a boolean. *)
Inductive pyval :=
| PyNone
| PyBool (b : bool).

Definition truthy (v : pyval) : bool :=
  match v with
  | PyBool b => b
  | PyNone => false
  end.

(** One element of [url_data]: the dictionary with the keys [url],
    [pages], [bandwidth], [entry] and [exit]. *)
Record Data := mkData {
  data_url : list N;
  data_pages : Z;
  data_bandwidth : Z;
  data_entry : Z;
  data_exit : Z
}.

(** What [process_file] prints before it returns. *)
Inductive report :=
| AlreadyProcessed
| SectionNotFound
| Processed.

Definition get_server_id (directory : list N) : option Z :=
  if bool_decide (directory = u "/var/lib/awstats") then Some 1
  else if bool_decide (directory = u "/home/private/server_stats/frankfurt")
  then Some 2
  else if bool_decide (directory = u "/home/private/server_stats/saopaulo")
  then Some 4
  else if bool_decide (directory = u "/home/private/server_stats/singapore")
  then Some 3
  else None.

Definition get_website_id (website_name : list N) : M Z :=
  db <- get;;
  match websites db !! website_name with
  | Some id => ret id
  | None => raise ValueError
  end.

Definition has_file_been_processed (filename : list N) (server_id : Z)
    (last_modified : Z) (force : bool) : M pyval :=
  if force then ret (PyBool false)
  else
    db <- get;;
    match file_tracking db !! (filename, server_id) with
    | None => ret PyNone
    | Some result => ret (PyBool (col_last_modified result =? last_modified))
    end.

Definition update_file_tracking (filename : list N) (server_id : Z)
    (last_modified : Z) (now : Z) : M unit :=
  db <- get;;
  put (mkDB (websites db) (website_url db) (website_url_stats db)
         (<[(filename, server_id) := Tracking last_modified now]>
            (file_tracking db))).

Section Ignore.

(** The prefixes read from [ignore_urls.txt] when the module is
    loaded. *)
Variable ignore_patterns : list (list N).

Definition should_ignore_url (url : list N) : bool :=
  bool_decide (url ∈ [[]; u "/"])
  || existsb (fun pattern => startswith url pattern) ignore_patterns.

Fixpoint parse_begin_map_loop (lines : list (list N))
    (positions : gmap (list N) Z) : res (gmap (list N) Z) :=
  match lines with
  | [] => OK positions
  | line :: rest =>
      line <- decode_utf8 line;;;
      let line := strip line in
      if startswith line (u "BEGIN_MAP") then
        parse_begin_map_loop rest positions
      else if startswith line (u "END_MAP") then OK positions
      else
        let parts := split line in
        if (length parts =? 2)%nat
           && startswith (nth 0 parts []) (u "POS_") then
          n <- int (nth 1 parts []);;;
          parse_begin_map_loop rest (<[nth 0 parts [] := n]> positions)
        else parse_begin_map_loop rest positions
  end.

(** [file] is the content of a file that has just been opened. *)
Definition parse_begin_map (file : list N) : res (gmap (list N) Z) :=
  parse_begin_map_loop (readlines file) ∅.

Fixpoint parse_pos_sider_loop (lines : list (list N))
    (url_data : list Data) : res (list Data) :=
  match lines with
  | [] => OK url_data
  | line :: rest =>
      line <- decode_utf8 line;;;
      let line := strip line in
      if startswith line (u "END_SIDER") then OK url_data
      else if negb (startswith line (u "#"))
              && negb (startswith line (u "BEGIN_SIDER")) then
        let parts := split line in
        if (length parts =? 5)%nat then
          let url := nth 0 parts [] in
          let url := if startswith url (u "/") then slice_from 1 url
                     else url in
          let url := if startswith url (u "wiki/")
                     then slice_from (length (u "wiki/")) url
                     else url in
          let url := unquote url in
          if should_ignore_url url then parse_pos_sider_loop rest url_data
          else
            ints <- map_int (slice_from 1 parts);;;
            match ints with
            | [pages; bandwidth; entry; exit_] =>
                parse_pos_sider_loop rest
                  (url_data ++ [mkData url pages bandwidth entry exit_])
            | _ => Raise ValueError
            end
        else parse_pos_sider_loop rest url_data
      else parse_pos_sider_loop rest url_data
  end.

Definition parse_pos_sider (file : list N) (pos_sider_offset : Z)
  : res (list Data) :=
  rest <- seek max_offset file pos_sider_offset;;;
  parse_pos_sider_loop (readlines rest) [].

Definition get_or_create_website_url_id (website_id : Z) (url : list N)
  : M Z :=
  db <- get;;
  match select_url_id (website_url db) website_id url with
  | Some id => ret id
  | None =>
      let id := lastrowid (website_url db) in
      put (mkDB (websites db)
             (<[id := (website_id, url)]> (website_url db))
             (website_url_stats db) (file_tracking db));;
      ret id
  end.

Definition update_server_stats (website_url_id server_id year month : Z)
    (data : Data) : M unit :=
  db <- get;;
  let key := (website_url_id, server_id, year, month) in
  let row :=
    match website_url_stats db !! key with
    | None => Stats (data_pages data) (data_entry data) (data_exit data)
    | Some old =>
        Stats (hits old + data_pages data)
              (entry_count old + data_entry data)
              (exit_count old + data_exit data)
    end in
  put (mkDB (websites db) (website_url db)
         (<[key := row]> (website_url_stats db)) (file_tracking db)).

(** The loop of [process_file] over [sider_data]. *)
Fixpoint merge_sider_data (website_id server_id year month : Z)
    (sider_data : list Data) : M unit :=
  match sider_data with
  | [] => ret tt
  | data :: rest =>
      website_url_id <-
        get_or_create_website_url_id website_id (data_url data);;
      update_server_stats website_url_id server_id year month data;;
      merge_sider_data website_id server_id year month rest
  end.

(** Line 172: ['.'.join(filename.split('.')[1:-1])]. *)
Definition filename_website (filename : list N) : list N :=
  join (u ".") (slice_from 1 (drop_last 1 (split_on 46 filename))).

(** Line 176: [int(filename[9:13])]. *)
Definition filename_year (filename : list N) : res Z :=
  int (slice 9 13 filename).

(** Line 177: [int(filename[7:9])]. *)
Definition filename_month (filename : list N) : res Z :=
  int (slice 7 9 filename).

(** [datetime.fromtimestamp(os.path.getmtime(path)).replace(microsecond=0)]:
    the microsecond field is dropped, the whole seconds are kept. *)
Definition file_last_modified (f : File) : Z :=
  dt_second (fromtimestamp (f_mtime f)).

(** [process_file] on the file found at [file_path]; [now] is the
    reading of [datetime.now()] taken when the fingerprint is written. *)
Definition process_file (file : File) (server_id : Z) (force : bool)
    (now : Z) : M report :=
  let filename := f_name file in
  let last_modified := file_last_modified file in
  processed <- has_file_been_processed filename server_id last_modified force;;
  if truthy processed then ret AlreadyProcessed
  else
    positions <- lift (parse_begin_map (f_content file));;
    match positions !! u "POS_SIDER" with
    | None => ret SectionNotFound
    | Some pos_sider =>
        sider_data <- lift (parse_pos_sider (f_content file) pos_sider);;
        let website_name := filename_website filename in
        website_id <- get_website_id website_name;;
        year <- lift (filename_year filename);;
        month <- lift (filename_month filename);;
        merge_sider_data website_id server_id year month sider_data;;
        update_file_tracking filename server_id last_modified now;;
        ret Processed
    end.

End Ignore.

(** *** [main] *)

(** The parsed command line. *)
Record Args := mkArgs {
  args_server : option (list N);
  args_file : option (list N);
  args_force : bool;
  args_website : option (list N)
}.

(** The truth value of an optional string argument: [None] and the empty
    string are false. *)
Definition given (a : option (list N)) : bool :=
  match a with
  | Some (_ :: _) => true
  | _ => false
  end.

Definition arg (a : option (list N)) : list N := default [] a.

(** Whether [main] goes on after a block or has returned from it. *)
Inductive flow :=
| Continue
| Return.

Definition and_then (c1 c2 : M flow) : M flow :=
  f <- c1;;
  match f with
  | Continue => c2
  | Return => ret Return
  end.

Definition directories : list (list N) :=
  [u "/var/lib/awstats";
   u "/home/private/server_stats/frankfurt";
   u "/home/private/server_stats/saopaulo";
   u "/home/private/server_stats/singapore"].

(** [DELETE ... WHERE cond] on one table. *)
Definition sql_delete {K A} `{Countable K} (cond : K * A -> bool)
    (t : gmap K A) : gmap K A :=
  filter (fun row => cond row = false) t.

(** [ws JOIN website_url wu ON ws.website_url_id = wu.id
     WHERE wu.website_id = website_id], for one row [ws]. *)
Definition stats_of_website (urls : gmap Z (Z * list N)) (website_id : Z)
    (ws : Z * Z * Z * Z * stats) : bool :=
  match urls !! key_url_id ws.1 with
  | Some wu => wu.1 =? website_id
  | None => false
  end.

(** [wu LEFT JOIN website_url_stats ws ON wu.id = ws.website_url_id
     WHERE ws.website_url_id IS NULL], for one row [wu]. *)
Definition unused_url (st : gmap (Z * Z * Z * Z) stats)
    (wu : Z * (Z * list N)) : bool :=
  negb (referenced st wu.1).

(** Lines 213 to 222: the website named on the command line must
    exist. *)
Definition check_website (args : Args) : M flow :=
  if given (args_website args) then
    db <- get;;
    match websites db !! arg (args_website args) with
    | Some _ => ret Continue
    | None => ret Return
    end
  else ret Continue.

(** Lines 226 to 246: the forced reset of one website. *)
Definition force_website (args : Args) : M flow :=
  if given (args_website args) then
    db <- get;;
    match websites db !! arg (args_website args) with
    | None => ret Return
    | Some website_id =>
        let st := sql_delete (stats_of_website (website_url db) website_id)
                    (website_url_stats db) in
        let urls := sql_delete
                      (fun wu => (wu.2.1 =? website_id) && unused_url st wu)
                      (website_url db) in
        put (mkDB (websites db) urls st (file_tracking db));;
        ret Continue
    end
  else ret Continue.

(** [get_server_id_from_name] is called on line 249 and defined nowhere in
    the module: evaluating the name raises [NameError]. *)
Definition get_server_id_from_name (server : list N) : res (option Z) :=
  Raise NameError.

(** Lines 247 to 263: the forced reset of one server. *)
Definition force_server (args : Args) : M flow :=
  if given (args_server args) then
    server_id <- lift (get_server_id_from_name (arg (args_server args)));;
    match server_id with
    | None => ret Return
    | Some server_id =>
        db <- get;;
        let st := sql_delete (fun ws => key_server_id ws.1 =? server_id)
                    (website_url_stats db) in
        let urls := sql_delete (unused_url st) (website_url db) in
        put (mkDB (websites db) urls st (file_tracking db));;
        ret Continue
    end
  else ret Continue.

(** [re.match(r'awstats(\d{2})(\d{4})', s)]: the two groups. *)
Definition match_awstats (s : list N) : option (list N * list N) :=
  if startswith s (u "awstats")
     && (length (slice 7 13 s) =? 6)%nat
     && forallb isdigit (slice 7 13 s)
  then Some (slice 7 9 s, slice 9 13 s)
  else None.

(** Lines 266 to 283: website name, year and month of the file named on
    the command line; [None] when the name is rejected. *)
Definition forced_file_key (filename : list N)
  : res (option (list N * Z * Z)) :=
  let filename_without_extension := drop_last 4 filename in
  let parts := split_on 46 filename_without_extension in
  if (length parts <? 2)%nat then OK None
  else
    let website_name := join (u ".") (slice_from 1 parts) in
    match match_awstats filename_without_extension with
    | Some (month_str, year_str) =>
        month <- int month_str;;;
        year <- int year_str;;;
        OK (Some (website_name, year, month))
    | None => OK None
    end.

(** Lines 264 to 303: the forced reset of one file. *)
Definition force_file (args : Args) : M flow :=
  if given (args_file args) then
    key <- lift (forced_file_key (arg (args_file args)));;
    match key with
    | None => ret Return
    | Some (website_name, year, month) =>
        db <- get;;
        match websites db !! website_name with
        | None => ret Return
        | Some website_id =>
            let st :=
              sql_delete
                (fun ws => stats_of_website (website_url db) website_id ws
                           && (key_year ws.1 =? year)
                           && (key_month ws.1 =? month))
                (website_url_stats db) in
            let urls := sql_delete
                          (fun wu => (wu.2.1 =? website_id) && unused_url st wu)
                          (website_url db) in
            put (mkDB (websites db) urls st (file_tracking db));;
            ret Continue
        end
    end
  else ret Continue.

(** Lines 304 to 307: the global forced reset. *)
Definition force_all (args : Args) : M flow :=
  if negb (given (args_website args)) && negb (given (args_server args))
     && negb (given (args_file args)) then
    db <- get;;
    put (mkDB (websites db) ∅ ∅ (file_tracking db));;
    ret Continue
  else ret Continue.

(** Lines 225 to 307. *)
Definition forced_reset (args : Args) : M flow :=
  if args_force args then
    and_then (force_website args)
      (and_then (force_server args)
         (and_then (force_file args) (force_all args)))
  else ret Continue.

(** Lines 207 to 211; [None] when no directory is left. *)
Definition select_directories (args : Args) : option (list (list N)) :=
  if given (args_server args) then
    match List.filter (fun dir => contains dir (arg (args_server args)))
            directories with
    | [] => None
    | ds => Some ds
    end
  else Some directories.

Section Run.

Variable ignore_patterns : list (list N).

(** The files of the run. *)
Variable fs : list (list N * list File).

(** The reading of [datetime.now()] when the fingerprint of the file
    with the given name in the given directory is written. *)
Variable clock : list N -> list N -> Z.

(** Lines 322 to 330: the entries of one directory. *)
Fixpoint process_listing (args : Args) (directory : list N)
    (server_id : Z) (entries : list File) : M unit :=
  match entries with
  | [] => ret tt
  | file :: rest =>
      let filename := f_name file in
      if endswith filename (u ".txt") && contains filename (u "awstats")
      then
        let filename_without_extension := drop_last 4 filename in
        let website_part :=
          slice_from (13 + 1) filename_without_extension in
        if given (args_website args)
           && negb (bool_decide (website_part = arg (args_website args)))
        then process_listing args directory server_id rest
        else
          process_file ignore_patterns file server_id (args_force args)
            (clock directory filename);;
          process_listing args directory server_id rest
      else process_listing args directory server_id rest
  end.

(** Lines 309 to 330. *)
Fixpoint process_directories (args : Args) (dirs : list (list N))
  : M unit :=
  match dirs with
  | [] => ret tt
  | directory :: rest =>
      match get_server_id directory with
      | None => process_directories args rest
      | Some server_id =>
          (if given (args_file args) then
             match lookup_file fs directory (arg (args_file args)) with
             | Some file =>
                 process_file ignore_patterns file server_id
                   (args_force args) (clock directory (f_name file));;
                 ret tt
             | None => ret tt
             end
           else
             entries <- lift (listdir fs directory);;
             process_listing args directory server_id entries);;
          process_directories args rest
      end
  end.

Definition main (args : Args) : M unit :=
  match select_directories args with
  | None => ret tt
  | Some dirs =>
      f <- and_then (check_website args) (forced_reset args);;
      match f with
      | Return => ret tt
      | Continue => process_directories args dirs
      end
  end.

End Run.

(** ** Notions used in the statements *)

(** The stored fingerprint of the file is its current modification time,
    cut to whole seconds. *)
Definition fingerprint_matches (db : DB) (file : File) (server_id : Z)
  : bool :=
  match file_tracking db !! (f_name file, server_id) with
  | Some t => col_last_modified t =? file_last_modified file
  | None => false
  end.

(** The part of [process_file] behind the gate (lines 159 to 186). *)
Definition ingest (ignore_patterns : list (list N)) (file : File)
    (server_id : Z) (now : Z) : M report :=
  let filename := f_name file in
  positions <- lift (parse_begin_map (f_content file));;
  match positions !! u "POS_SIDER" with
  | None => ret SectionNotFound
  | Some pos_sider =>
      sider_data <-
        lift (parse_pos_sider ignore_patterns (f_content file) pos_sider);;
      website_id <- get_website_id (filename_website filename);;
      year <- lift (filename_year filename);;
      month <- lift (filename_month filename);;
      merge_sider_data website_id server_id year month sider_data;;
      update_file_tracking filename server_id (file_last_modified file) now;;
      ret Processed
  end.

(** The text the decoder works on: the line decoded and stripped. *)
Definition line_text (raw : list N) : res (list N) :=
  line <- decode_utf8 raw;;;
  OK (strip line).

(** The lines before the END_SIDER marker, as text. *)
Fixpoint sider_region (lines : list (list N)) : res (list (list N)) :=
  match lines with
  | [] => OK []
  | raw :: rest =>
      line <- line_text raw;;;
      if startswith line (u "END_SIDER") then OK []
      else
        region <- sider_region rest;;;
        OK (line :: region)
  end.

Definition strip_prefix (p s : list N) : list N :=
  if startswith s p then drop (length p) s else s.

(** One leading ['/'] stripped, then one ['wiki/'] prefix, then
    percent-decoding. *)
Definition normalize_url (field : list N) : list N :=
  unquote (strip_prefix (u "wiki/") (strip_prefix (u "/") field)).

(** A line that is neither a comment nor the BEGIN_SIDER marker, has
    exactly five fields and a normalized URL that is not ignored. *)
Definition accepted (ignore_patterns : list (list N)) (line : list N)
  : bool :=
  negb (startswith line (u "#"))
  && negb (startswith line (u "BEGIN_SIDER"))
  && (length (split line) =? 5)%nat
  && negb (should_ignore_url ignore_patterns
             (normalize_url (nth 0 (split line) []))).

(** The four counter fields of a line. *)
Definition counters (line : list N) : res (list Z) :=
  map_int (drop 1 (split line)).

(** The record of an accepted line. *)
Definition decodes_to (line : list N) (data : Data) : Prop :=
  data_url data = normalize_url (nth 0 (split line) [])
  ∧ counters line
    = OK [data_pages data; data_bandwidth data; data_entry data;
          data_exit data].

(** A line of the section that is accepted and has a counter that is not
    an integer. *)
Definition bad_counter_line (ignore_patterns : list (list N))
    (line : list N) : bool :=
  accepted ignore_patterns line && negb (is_ok (counters line)).

(** A record with another bandwidth. *)
Definition with_bandwidth (b : Z) (data : Data) : Data :=
  mkData (data_url data) (data_pages data) b (data_entry data)
    (data_exit data).

(** The entry of a directory listing is processed: lines 323 to 328. *)
Definition listed (args : Args) (file : File) : bool :=
  endswith (f_name file) (u ".txt")
  && contains (f_name file) (u "awstats")
  && negb (given (args_website args)
           && negb (bool_decide
                      (slice_from (13 + 1) (drop_last 4 (f_name file))
                       = arg (args_website args)))).

(** Two stores with the same [websites] and [file_tracking] tables. *)
Definition same_frame (db db' : DB) : Prop :=
  websites db' = websites db ∧ file_tracking db' = file_tracking db.

(** No URL of the scope is left without a stats row. *)
Definition no_orphans (scope : Z -> Prop) (db : DB) : Prop :=
  ∀ id website_id url,
    website_url db !! id = Some (website_id, url) →
    scope website_id →
    ∃ k row, website_url_stats db !! k = Some row ∧ key_url_id k = id.

(** ** Sample data *)

(** The bytes of a text file with the given lines. *)
Definition text (ls : list string) : list N :=
  concat (List.map (fun l => u l ++ [10%N]) ls).

(** A report whose index points at its SIDER section. *)
Definition sample_report : list N :=
  text ["AWSTATS DATA FILE 7.8";
        "BEGIN_MAP 2";
        "POS_GENERAL 70";
        "POS_SIDER 113";
        "END_MAP";
        EmptyString;
        "# URL - Pages - Bandwidth - Entry - Exit";
        "BEGIN_SIDER 5";
        "/wiki/Some%20Page 10 2048 3 4";
        "/ignored/a 1 1 1 1";
        "/index.php 7 512 2 1";
        "/ignored/b 2 2 2 2";
        "/ignored/c 3 3 3 3";
        "END_SIDER";
        "BEGIN_OTHER 1";
        "x 1";
        "END_OTHER"]%string.

Definition sample_file : File :=
  mkFile (u "awstats032024.example.com.txt") 1711000000123456789
    sample_report.

Definition sample_db : DB :=
  mkDB {[ u "example.com" := 7 ]} ∅ ∅ ∅.

Definition sample_ignore : list (list N) := [u "ignored/"].

(** A report whose index has no entry for the SIDER section. *)
Definition no_sider_file : File :=
  mkFile (u "awstats022024.example.com.txt") 1708000000000000000
    (text ["BEGIN_MAP 1"; "POS_GENERAL 40"; "END_MAP";
           "BEGIN_GENERAL 0"; "END_GENERAL"]%string).

(** A report with a record whose entry count is not an integer. *)
Definition bad_counter_file : File :=
  mkFile (u "awstats012024.example.com.txt") 1706000000000000000
    (text ["BEGIN_MAP 1"; "POS_SIDER 33"; "END_MAP";
           "BEGIN_SIDER 1"; "/index.php 7 512 x 1"; "END_SIDER"]%string).

(** The four directories of the run, the first with a report that has a
    bad counter followed by a well-formed one. *)
Definition sample_fs : list (list N * list File) :=
  [(u "/var/lib/awstats", [bad_counter_file; sample_file]);
   (u "/home/private/server_stats/frankfurt", []);
   (u "/home/private/server_stats/saopaulo", []);
   (u "/home/private/server_stats/singapore", [])].

(** The command line without any option. *)
Definition no_args : Args := mkArgs None None false None.

Definition sample_clock (directory filename : list N) : Z := 1712000000.

(** A store in which the URL with id 1 has a stats row from server 2
    only and the URL with id 2 has none. *)
Definition stale_db : DB :=
  mkDB {[ u "example.com" := 7 ]}
       {[ 1 := (7, u "Some Page"); 2 := (7, u "Old Page") ]}
       {[ (1, 2, 2024, 3) := Stats 10 3 4 ]}
       ∅.

(** [--force --server frankfurt]. *)
Definition force_frankfurt : Args :=
  mkArgs (Some (u "frankfurt")) None true None.

(** ** Further notions *)

(** Lines 33 to 37: the patterns kept from the lines of
    [ignore_urls.txt], [[]] when the file does not exist. *)
Definition load_ignore_patterns (lines : option (list (list N)))
  : list (list N) :=
  match lines with
  | Some f =>
      List.map strip
        (List.filter (fun line => negb (bool_decide (strip line = []))) f)
  | None => []
  end.

(** Line 326: the website named by a listed file, for the [--website]
    filter. *)
Definition website_part (filename : list N) : list N :=
  slice_from (13 + 1) (drop_last 4 filename).

(** At most one [website_url] row per (website_id, url). *)
Definition url_unique (db : DB) : Prop :=
  ∀ id1 id2 row,
    website_url db !! id1 = Some row →
    website_url db !! id2 = Some row →
    id1 = id2.




(** Two stores that differ at most in [file_tracking]. *)
Definition same_data (db db' : DB) : Prop :=
  websites db' = websites db
  ∧ website_url db' = website_url db
  ∧ website_url_stats db' = website_url_stats db.

(** Every URL row of the first store is in the second. *)
Definition urls_kept (db db' : DB) : Prop :=
  ∀ id row, website_url db !! id = Some row → website_url db' !! id = Some row.

(** [--force] alone. *)
Definition force_only : Args := mkArgs None None true None.

(** [--force --website example.com]. *)
Definition force_example : Args :=
  mkArgs None None true (Some (u "example.com")).

(** [--force --file awstats032024.example.com.txt]. *)
Definition force_march : Args :=
  mkArgs None (Some (u "awstats032024.example.com.txt")) true None.

(** [--website example.com]. *)
Definition only_example : Args :=
  mkArgs None None false (Some (u "example.com")).

(** A store with two websites, URLs of both, stats of two months and a
    URL without stats. *)
Definition two_sites_db : DB :=
  mkDB {[ u "example.com" := 7; u "other.org" := 8 ]}
       {[ 1 := (7, u "Some Page"); 2 := (7, u "Old Page");
          3 := (8, u "Some Page"); 4 := (7, u "Kept") ]}
       {[ (1, 1, 2024, 3) := Stats 10 3 4;
          (4, 1, 2024, 2) := Stats 5 1 1;
          (4, 2, 2024, 3) := Stats 2 1 0;
          (3, 1, 2024, 3) := Stats 6 2 2 ]}
       ∅.

(** A platform for the examples: the largest offset of a file system
    with 4 KiB blocks and 32-bit block numbers, and a clock on UTC that
    rounds to the nearest microsecond. *)
Definition sample_max_offset : Z := 2 ^ 44 - 4096.

Definition sample_fromtimestamp (ns : Z) : datetime :=
  let us := (ns + 500) / 1000 in
  mkDatetime (us / 1000000) (us mod 1000000).

(** The four directories of a run in which every report is well
    formed. *)
Definition good_fs : list (list N * list File) :=
  [(u "/var/lib/awstats", [sample_file]);
   (u "/home/private/server_stats/frankfurt", []);
   (u "/home/private/server_stats/saopaulo", []);
   (u "/home/private/server_stats/singapore", [])].

(** The counters of a URL of a website for one server and month, found
    through the URL's row whatever its identifier is. *)
Definition bucket (db : DB) (website_id : Z) (url : list N)
    (server_id year month : Z) : option stats :=
  match select_url_id (website_url db) website_id url with
  | Some id => website_url_stats db !! (id, server_id, year, month)
  | None => None
  end.

(** Two stores with the same aggregates, the identifiers of the URL
    rows left aside: the same (website, URL) pairs have a row, and each
    has the same counters for every server and month. *)
Definition same_aggregates (db db' : DB) : Prop :=
  ∀ website_id url,
    (is_Some (select_url_id (website_url db) website_id url)
     ↔ is_Some (select_url_id (website_url db') website_id url))
    ∧ ∀ server_id year month,
        bucket db website_id url server_id year month
        = bucket db' website_id url server_id year month.

(** * Properties *)

Ltac munfold :=
  unfold and_then, bind, ret, raise, lift, get, put in *; simpl in *.

(** ** The file state tracker *)

Lemma has_file_been_processed_state filename server_id last_modified force db :
  (has_file_been_processed filename server_id last_modified force db).2 = db.
Proof.
  unfold has_file_been_processed. destruct force; munfold; [done|].
  by destruct (file_tracking db !! (filename, server_id)).
Qed.

Lemma has_file_been_processed_truthy filename server_id last_modified db :
  ∃ v, (has_file_been_processed filename server_id last_modified false db).1
       = OK v
       ∧ (truthy v = true
          ↔ ∃ pd, file_tracking db !! (filename, server_id)
                  = Some (Tracking last_modified pd)).
Proof.
  unfold has_file_been_processed; munfold.
  destruct (file_tracking db !! (filename, server_id)) as [[lm pd]|] eqn:E;
    simpl; eexists; (split; [reflexivity|]); simpl.
  - rewrite Z.eqb_eq. split.
    + intros ->. by exists pd.
    + intros [pd' [= -> _]]. done.
  - split; [done|]. by intros [pd' ?].
Qed.

(** The gate of [process_file], in terms of the stored fingerprint. *)
Lemma process_file_gate pats file server_id now db :
  (process_file pats file server_id false now db).1 = OK AlreadyProcessed
  ↔ ∃ pd, file_tracking db !! (f_name file, server_id)
          = Some (Tracking (file_last_modified file) pd).
Proof.
  unfold process_file, has_file_been_processed, get_website_id; munfold.
  destruct (file_tracking db !! (f_name file, server_id)) as [[lm pd]|] eqn:E;
    simpl.
  - destruct (Z.eqb_spec lm (file_last_modified file)) as [->|Hne]; simpl.
    + split; [by exists pd | done].
    + split; [|intros [pd' [= ? _]]; done].
      repeat (case_match; simpl in *; try done).
  - split; [|by intros [pd' ?]].
    repeat (case_match; simpl in *; try done).
Qed.

Lemma skipped_state pats file server_id now db :
  (process_file pats file server_id false now db).1 = OK AlreadyProcessed →
  (process_file pats file server_id false now db).2 = db.
Proof.
  intros H. apply process_file_gate in H as [pd H].
  unfold process_file, has_file_been_processed; munfold.
  rewrite H. simpl. by rewrite Z.eqb_refl.
Qed.

(** C6: with [force] the gate answers [False]; without it the answer is
    truthy exactly when a fingerprint is stored for (filename, server_id)
    whose [last_modified] equals the given time.  The time that
    [process_file] passes is the [datetime] of the file's modification
    time without its microsecond field: a fingerprint of second [s]
    matches exactly when the whole seconds of that [datetime] are [s],
    and two modification times whose [datetime]s differ in the
    microsecond field only get the same answer.  The gate never
    writes. *)
Theorem has_file_been_processed_spec
    (filename : list N) (server_id last_modified : Z) (db : DB) :
  (∀ force,
     (has_file_been_processed filename server_id last_modified force db).2
     = db)
  ∧ has_file_been_processed filename server_id last_modified true db
    = (OK (PyBool false), db)
  ∧ (∃ v,
       (has_file_been_processed filename server_id last_modified false db).1
       = OK v
       ∧ (truthy v = true
          ↔ ∃ pd, file_tracking db !! (filename, server_id)
                  = Some (Tracking last_modified pd)))
  ∧ (∀ pats file now s pd,
       file_tracking db !! (f_name file, server_id) = Some (Tracking s pd) →
       ((process_file pats file server_id false now db).1
        = OK AlreadyProcessed
        ↔ s = dt_second (fromtimestamp (f_mtime file))))
  ∧ (∀ pats file file' now,
       f_name file' = f_name file →
       dt_second (fromtimestamp (f_mtime file'))
       = dt_second (fromtimestamp (f_mtime file)) →
       ((process_file pats file' server_id false now db).1
        = OK AlreadyProcessed
        ↔ (process_file pats file server_id false now db).1
          = OK AlreadyProcessed)).
Proof.
  split; [intros; apply has_file_been_processed_state|].
  split; [done|].
  split; [apply has_file_been_processed_truthy|].
  split.
  - intros pats file now s pd Hs. rewrite process_file_gate.
    unfold file_last_modified. rewrite Hs. split.
    + by intros [pd' [= -> _]].
    + intros ->. by exists pd.
  - intros pats file file' now Hname Hsec. rewrite !process_file_gate.
    unfold file_last_modified. by rewrite Hname, Hsec.
Qed.

(** ** The aggregation merger *)

(** C3: [update_server_stats] inserts a row with the record's pages, entry
    and exit counts when the key has none and adds them to the row's
    counters when it has one; no other row and no other table changes,
    and the result does not depend on the record's bandwidth, neither for
    one record nor for the records of a whole file. *)
Theorem update_server_stats_spec
    (website_url_id server_id year month : Z) (data : Data) (db : DB) :
  let key := (website_url_id, server_id, year, month) in
  let r := update_server_stats website_url_id server_id year month data db in
  r.1 = OK tt
  ∧ website_url_stats r.2 !! key
    = Some (match website_url_stats db !! key with
            | None => Stats (data_pages data) (data_entry data)
                        (data_exit data)
            | Some old => Stats (hits old + data_pages data)
                            (entry_count old + data_entry data)
                            (exit_count old + data_exit data)
            end)
  ∧ (∀ k, k ≠ key → website_url_stats r.2 !! k = website_url_stats db !! k)
  ∧ websites r.2 = websites db
  ∧ website_url r.2 = website_url db
  ∧ file_tracking r.2 = file_tracking db
  ∧ (∀ b, update_server_stats website_url_id server_id year month
            (with_bandwidth b data) db = r)
  ∧ (∀ b website_id sider_data,
       merge_sider_data website_id server_id year month
         (with_bandwidth b <$> sider_data) db
       = merge_sider_data website_id server_id year month sider_data db).
Proof.
  unfold update_server_stats; munfold.
  split; [done|]. split; [by rewrite lookup_insert_eq|].
  split; [by intros k Hk; rewrite lookup_insert_ne|].
  do 4 (split; [done|]).
  intros b website_id sider_data. revert db.
  induction sider_data as [|d l IH]; intros db; [done|].
  simpl. unfold get_or_create_website_url_id, update_server_stats; munfold.
  destruct (select_url_id (website_url db) website_id (data_url d));
    simpl; apply IH.
Qed.

(** ** Identifier resolution *)

Lemma select_url_id_Some t w url id :
  select_url_id t w url = Some id → t !! id = Some (w, url).
Proof.
  unfold select_url_id. intros H.
  apply fmap_Some in H as [[id' row] [H ->]].
  apply head_Some_elem_of, elem_of_map_to_list in H.
  apply map_lookup_filter_Some in H as [H1 H2]. simpl in *. by subst.
Qed.

Lemma select_url_id_None t w url id :
  select_url_id t w url = None → t !! id ≠ Some (w, url).
Proof.
  unfold select_url_id. intros H Hid.
  apply fmap_None, head_None, map_to_list_empty_iff in H.
  assert (filter (λ kv : Z * (Z * list N), kv.2 = (w, url)) t !! id
          = Some (w, url)) as Hf
    by (by apply map_lookup_filter_Some).
  by rewrite H in Hf.
Qed.

Lemma foldr_max_ge (l : list Z) x : x ∈ l → x <= foldr Z.max 0 l.
Proof.
  induction 1 as [|x y l _ IH]; simpl; lia.
Qed.

Lemma lastrowid_fresh (t : gmap Z (Z * list N)) : t !! lastrowid t = None.
Proof.
  destruct (t !! lastrowid t) as [row|] eqn:E; [|done].
  apply elem_of_map_to_list in E.
  assert (lastrowid t ∈ (map_to_list t).*1) as Hin.
  { apply list_elem_of_fmap. by exists (lastrowid t, row). }
  apply foldr_max_ge in Hin. unfold lastrowid in Hin at 1. lia.
Qed.

(** What the loop over the records of a file does to the store: it always
    completes, leaves [websites] and [file_tracking] alone, keeps every
    URL row, adds rows only for URLs of the records, and changes stats
    only under identifiers that resolve to such URLs. *)
Lemma merge_sider_data_effect w sid y m l db :
  ∃ db',
    merge_sider_data w sid y m l db = (OK tt, db')
    ∧ websites db' = websites db
    ∧ file_tracking db' = file_tracking db
    ∧ (∀ id row, website_url db !! id = Some row →
                 website_url db' !! id = Some row)
    ∧ (∀ id row, website_url db' !! id = Some row →
                 website_url db !! id = Some row
                 ∨ (row.1 = w ∧ row.2 ∈ data_url <$> l))
    ∧ (∀ k, website_url_stats db' !! k ≠ website_url_stats db !! k →
            ∃ url, url ∈ data_url <$> l
                   ∧ website_url db' !! key_url_id k = Some (w, url)).
Proof.
  revert db. induction l as [|d l IH]; intros db.
  - exists db. simpl. munfold. repeat split; auto. intros k Hk. done.
  - simpl. unfold get_or_create_website_url_id, update_server_stats.
    munfold.
    destruct (select_url_id (website_url db) w (data_url d)) as [id|] eqn:E;
      simpl.
    + apply select_url_id_Some in E.
      match goal with |- context [merge_sider_data w sid y m l ?d0] =>
        destruct (IH d0) as (db' & -> & Hw & Hf & Hk & Hn & Hs) end.
      simpl in *. exists db'. repeat split; auto.
      * intros i row Hi. destruct (Hn i row Hi) as [?|[? ?]]; auto.
        right. split; [done|]. by apply elem_of_cons; right.
      * intros k Hne.
        destruct (decide (k = (id, sid, y, m))) as [->|Hkne].
        -- exists (data_url d). split; [by apply elem_of_cons; left|].
           unfold key_url_id; simpl. by apply Hk.
        -- destruct (Hs k) as (url & Hin & Hl);
             [by rewrite lookup_insert_ne|].
           exists url. split; [by apply elem_of_cons; right|done].
    + pose proof (lastrowid_fresh (website_url db)) as Hfresh.
      set (id := lastrowid (website_url db)) in *.
      match goal with |- context [merge_sider_data w sid y m l ?d0] =>
        destruct (IH d0) as (db' & -> & Hw & Hf & Hk & Hn & Hs) end.
      simpl in *. exists db'. repeat split; auto.
      * intros i row Hi. apply Hk. rewrite lookup_insert_ne; [done|].
        intros ->. by rewrite Hfresh in Hi.
      * intros i row Hi. destruct (Hn i row Hi) as [Hold|[? ?]].
        -- destruct (decide (id = i)) as [->|Hne].
           ++ rewrite lookup_insert_eq in Hold. injection Hold as <-.
              right. split; [done|]. by apply elem_of_cons; left.
           ++ rewrite lookup_insert_ne in Hold by done. by left.
        -- right. split; [done|]. by apply elem_of_cons; right.
      * intros k Hne.
        destruct (decide (k = (id, sid, y, m))) as [->|Hkne].
        -- exists (data_url d). split; [by apply elem_of_cons; left|].
           unfold key_url_id; simpl. apply Hk. by rewrite lookup_insert_eq.
        -- destruct (Hs k) as (url & Hin & Hl);
             [by rewrite lookup_insert_ne|].
           exists url. split; [by apply elem_of_cons; right|done].
Qed.

(** ** The orchestrator, one file *)

Lemma process_file_unfold pats file server_id force now db :
  process_file pats file server_id force now db
  = if negb force && fingerprint_matches db file server_id
    then (OK AlreadyProcessed, db)
    else ingest pats file server_id now db.
Proof.
  unfold process_file, ingest, has_file_been_processed, fingerprint_matches.
  destruct force; munfold; [done|].
  destruct (file_tracking db !! (f_name file, server_id)) as [t|]; simpl;
    [|done].
  by destruct (col_last_modified t =? file_last_modified file).
Qed.

(** An ingestion either stops before the first write, whatever the clock
    reads, or merges, records the fingerprint and reports success. *)
Lemma ingest_outcome pats file server_id now db :
  ((ingest pats file server_id now db).2 = db
   ∧ (ingest pats file server_id now db).1 ≠ OK Processed
   ∧ ∀ now', ingest pats file server_id now' db
             = ingest pats file server_id now db)
  ∨ ((ingest pats file server_id now db).1 = OK Processed
     ∧ fingerprint_matches (ingest pats file server_id now db).2 file
         server_id = true).
Proof.
  unfold ingest, get_website_id, update_file_tracking; munfold.
  destruct (parse_begin_map (f_content file)) as [positions|]; simpl;
    [|by left].
  destruct (positions !! u "POS_SIDER") as [off|]; simpl; [|by left].
  destruct (parse_pos_sider pats (f_content file) off) as [sider|]; simpl;
    [|by left].
  destruct (websites db !! _) as [w|]; simpl; [|by left].
  destruct (filename_year _) as [y|]; simpl; [|by left].
  destruct (filename_month _) as [m|]; simpl; [|by left].
  destruct (merge_sider_data_effect w server_id y m sider db)
    as (db' & -> & _). simpl.
  right. split; [done|]. unfold fingerprint_matches; simpl.
  rewrite lookup_insert_eq. simpl. apply Z.eqb_refl.
Qed.

(** C1: whatever the first run of [process_file] on a file did (with or
    without [force], at any clock reading), a second run without [force]
    on the same file leaves the whole store as the first run left it: no
    merge, no fingerprint update, and so the same hits, entry and exit
    counters.  When the first run reported success the second reports
    that the file has already been processed. *)
Theorem process_file_idempotent
    (pats : list (list N)) (file : File) (server_id : Z) (force : bool)
    (now1 now2 : Z) (db : DB) :
  let first := process_file pats file server_id force now1 db in
  let second := process_file pats file server_id false now2 first.2 in
  second.2 = first.2
  ∧ website_url_stats second.2 = website_url_stats first.2
  ∧ file_tracking second.2 = file_tracking first.2
  ∧ (first.1 = OK Processed → second.1 = OK AlreadyProcessed).
Proof.
  intros first second.
  assert (second.2 = first.2
          ∧ (first.1 = OK Processed → second.1 = OK AlreadyProcessed))
    as [H1 H2]; [|by rewrite H1].
  subst first second. rewrite !process_file_unfold. simpl.
  destruct (negb force && fingerprint_matches db file server_id) eqn:G;
    simpl.
  - rewrite andb_true_iff in G. destruct G as [_ ->]. done.
  - destruct (ingest_outcome pats file server_id now1 db)
      as [(Hdb & Hne & Hnow)|(Hok & Hfp)].
    + rewrite Hdb.
      destruct (fingerprint_matches db file server_id); simpl; [done|].
      rewrite (Hnow now2). by rewrite Hdb.
    + by rewrite Hfp.
Qed.

(** ** Forced reset *)

Lemma and_then_preserves (P : DB → DB → Prop) (c1 c2 : M flow) :
  (∀ a b c, P a b → P b c → P a c) →
  (∀ db, P db (c1 db).2) →
  (∀ db, P db (c2 db).2) →
  ∀ db, P db (and_then c1 c2 db).2.
Proof.
  intros Htrans H1 H2 db. unfold and_then; munfold.
  specialize (H1 db). destruct (c1 db) as [[[|]|e] db1]; simpl in *; auto.
  eapply Htrans; [exact H1|apply H2].
Qed.

Lemma same_frame_trans a b c : same_frame a b → same_frame b c → same_frame a c.
Proof. intros [? ?] [? ?]. split; congruence. Qed.

Lemma check_website_state args db : (check_website args db).2 = db.
Proof.
  unfold check_website. destruct (given _); munfold; [|done].
  by destruct (websites db !! _).
Qed.

Lemma force_website_frame args db : same_frame db (force_website args db).2.
Proof.
  unfold force_website. destruct (given _); munfold; [|done].
  by destruct (websites db !! _).
Qed.

Lemma force_server_frame args db : same_frame db (force_server args db).2.
Proof.
  unfold force_server. by destruct (given _); munfold.
Qed.

Lemma force_file_frame args db : same_frame db (force_file args db).2.
Proof.
  unfold force_file. destruct (given _); munfold; [|done].
  destruct (forced_file_key _) as [[[[name y] m]|]|]; simpl; try done.
  by destruct (websites db !! _).
Qed.

Lemma force_all_frame args db : same_frame db (force_all args db).2.
Proof.
  unfold force_all. by destruct (_ && _); munfold.
Qed.

(** C10: the forced reset, whatever the scopes named on the command line
    and however it ends, leaves every row of [websites] and of
    [file_tracking] as it was; the stored fingerprints survive it. *)
Theorem forced_reset_frame (args : Args) (db : DB) :
  websites (forced_reset args db).2 = websites db
  ∧ file_tracking (forced_reset args db).2 = file_tracking db
  ∧ (∀ filename server_id,
       file_tracking (forced_reset args db).2 !! (filename, server_id)
       = file_tracking db !! (filename, server_id)).
Proof.
  assert (same_frame db (forced_reset args db).2) as [Hw Hf].
  { unfold forced_reset. destruct (args_force args); [|done].
    revert db.
    apply and_then_preserves;
      [exact same_frame_trans | apply force_website_frame |].
    apply and_then_preserves;
      [exact same_frame_trans | apply force_server_frame |].
    apply and_then_preserves;
      [exact same_frame_trans | apply force_file_frame |
       apply force_all_frame]. }
  split; [done|]. split; [done|]. intros. by rewrite Hf.
Qed.

Lemma referenced_true st id :
  referenced st id = true →
  ∃ k row, st !! k = Some row ∧ key_url_id k = id.
Proof.
  unfold referenced. intros H. apply bool_decide_eq_true in H.
  apply list_elem_of_fmap in H as (k & -> & H).
  apply list_elem_of_fmap in H as ([k' row] & -> & H).
  apply elem_of_map_to_list in H. by exists k', row.
Qed.

Lemma sql_delete_lookup {K A} `{Countable K} (cond : K * A → bool)
    (t : gmap K A) k row :
  sql_delete cond t !! k = Some row ↔ t !! k = Some row ∧ cond (k, row) = false.
Proof.
  unfold sql_delete.
  apply (map_lookup_filter_Some (λ r : K * A, cond r = false)).
Qed.

(** The reset of one website sweeps the orphaned URLs of that website. *)
Lemma force_website_sweeps args db website_id :
  given (args_website args) = true →
  websites db !! arg (args_website args) = Some website_id →
  (force_website args db).1 = OK Continue
  ∧ no_orphans (λ w, w = website_id) (force_website args db).2.
Proof.
  intros Hg Hw. unfold force_website. rewrite Hg. munfold. rewrite Hw. simpl.
  split; [done|]. intros id w url Hrow ->. simpl in *.
  apply sql_delete_lookup in Hrow as [_ Hc]. simpl in Hc.
  rewrite Z.eqb_refl in Hc. simpl in Hc. unfold unused_url in Hc.
  apply negb_false_iff, referenced_true in Hc. exact Hc.
Qed.

(** The reset of one file sweeps the orphaned URLs of its website. *)
Lemma force_file_sweeps args db website_name year month website_id :
  given (args_file args) = true →
  forced_file_key (arg (args_file args))
  = OK (Some (website_name, year, month)) →
  websites db !! website_name = Some website_id →
  (force_file args db).1 = OK Continue
  ∧ no_orphans (λ w, w = website_id) (force_file args db).2.
Proof.
  intros Hg Hk Hw. unfold force_file. rewrite Hg. munfold.
  rewrite Hk. simpl. rewrite Hw. simpl.
  split; [done|]. intros id w url Hrow ->. simpl in *.
  apply sql_delete_lookup in Hrow as [_ Hc]. simpl in Hc.
  rewrite Z.eqb_refl in Hc. simpl in Hc. unfold unused_url in Hc.
  apply negb_false_iff, referenced_true in Hc. exact Hc.
Qed.

(** The global reset leaves no URL at all. *)
Lemma force_all_sweeps args db :
  given (args_website args) = false →
  given (args_server args) = false →
  given (args_file args) = false →
  (force_all args db).1 = OK Continue
  ∧ no_orphans (λ _, True) (force_all args db).2.
Proof.
  intros H1 H2 H3. unfold force_all. rewrite H1, H2, H3. munfold.
  split; [done|]. intros id w url Hrow _. simpl in Hrow. done.
Qed.

(** The reset of one server stops at the call of the undefined
    [get_server_id_from_name]: nothing is deleted and nothing is swept. *)
Lemma force_server_raises args db :
  given (args_server args) = true →
  force_server args db = (Raise NameError, db).
Proof. intros Hg. unfold force_server. rewrite Hg. done. Qed.

(** C7, at [--force --server frankfurt] on a store with a stats row of
    server 2 and a URL without stats: the reset raises [NameError] and
    returns the store as it was, so the stats row of the server is still
    there, the URL without stats has not been swept, and [no_orphans]
    fails for the scope of all websites; [main] ends with the same
    exception before any file is read. *)
Theorem forced_reset_server_not_swept :
  forced_reset force_frankfurt stale_db = (Raise NameError, stale_db)
  ∧ website_url_stats (forced_reset force_frankfurt stale_db).2
      !! (1, 2, 2024, 3) = Some (Stats 10 3 4)
  ∧ website_url (forced_reset force_frankfurt stale_db).2 !! 2
    = Some (7, u "Old Page")
  ∧ referenced (website_url_stats (forced_reset force_frankfurt stale_db).2) 2
    = false
  ∧ ¬ no_orphans (λ _, True) (forced_reset force_frankfurt stale_db).2
  ∧ main sample_ignore sample_fs sample_clock force_frankfurt stale_db
    = (Raise NameError, stale_db).
Proof.
  assert (forced_reset force_frankfurt stale_db = (Raise NameError, stale_db))
    as -> by reflexivity.
  split; [done|]. split; [by vm_compute|]. split; [by vm_compute|].
  split; [by vm_compute|]. split; [|by vm_compute].
  intros Hno.
  destruct (Hno 2 7 (u "Old Page")) as (k & row & Hk & Hid);
    [by vm_compute | done |].
  simpl in Hk. unfold stale_db in Hk. simpl in Hk.
  apply lookup_singleton_Some in Hk as [<- _]. by vm_compute in Hid.
Qed.

(** ** The offset index reader *)

(** A line of the index with two fields, the first starting with [POS_],
    makes the scan raise whatever [int] raises on the second. *)
Lemma parse_begin_map_loop_raises raw rest positions line a b e :
  line_text raw = OK line →
  startswith line (u "BEGIN_MAP") = false →
  startswith line (u "END_MAP") = false →
  split line = [a; b] →
  startswith a (u "POS_") = true →
  int b = Raise e →
  parse_begin_map_loop (raw :: rest) positions = Raise e.
Proof.
  unfold line_text. intros Hl Hb He Hs Ha Hi. simpl.
  destruct (decode_utf8 raw) as [l|]; simpl in *; [|done].
  injection Hl as <-. rewrite Hb, He, Hs. simpl. rewrite Ha, Hi. done.
Qed.

(** C9: there is a file with, inside its index, a line of exactly two
    fields, the first starting with [POS_] and the second not an integer,
    on which [parse_begin_map] raises [ValueError] instead of skipping the
    line. *)
Theorem parse_begin_map_raises :
  ∃ (file raw line a b : list N),
    readlines file !! 1%nat = Some raw
    ∧ line_text raw = OK line
    ∧ split line = [a; b]
    ∧ startswith a (u "POS_") = true
    ∧ int b = Raise ValueError
    ∧ parse_begin_map file = Raise ValueError.
Proof.
  exists (text ["BEGIN_MAP 2"; "POS_SIDER abc"; "END_MAP"]%string),
         (u "POS_SIDER abc" ++ [10%N]), (u "POS_SIDER abc"),
         (u "POS_SIDER"), (u "abc").
  repeat split; reflexivity.
Qed.

(** ** File names *)

Lemma split_on_nonempty sep s : split_on sep s ≠ [].
Proof.
  destruct s as [|c s]; simpl; [done|].
  destruct (c =? sep)%N; [done|]. by destruct (split_on sep s).
Qed.

Lemma split_on_no_sep sep s : sep ∉ s → split_on sep s = [s].
Proof.
  induction s as [|c s IH]; intros Hn; simpl; [done|].
  apply not_elem_of_cons in Hn as [Hne Hn].
  destruct (N.eqb_spec c sep) as [->|_]; [done|]. by rewrite IH.
Qed.

Lemma split_on_app sep a b :
  split_on sep (a ++ sep :: b) = split_on sep a ++ split_on sep b.
Proof.
  induction a as [|c a IH]; simpl.
  - by rewrite N.eqb_refl.
  - destruct (c =? sep)%N; [by rewrite IH|]. rewrite IH.
    pose proof (split_on_nonempty sep a).
    by destruct (split_on sep a).
Qed.

Lemma join_split_on sep s : join [sep] (split_on sep s) = s.
Proof.
  induction s as [|c s IH]; simpl; [done|].
  pose proof (split_on_nonempty sep s) as Hne.
  destruct (N.eqb_spec c sep) as [->|_].
  - destruct (split_on sep s) as [|w ws]; [done|]. simpl in *.
    by rewrite IH.
  - destruct (split_on sep s) as [|w [|w' ws]]; [done| |]; simpl in *.
    + by subst.
    + by rewrite IH.
Qed.

Lemma drop_last_app {A} (l t : list A) k :
  length t = k → drop_last k (l ++ t) = l.
Proof.
  intros <-. unfold drop_last. rewrite length_app.
  replace (length l + length t - length t)%nat with (length l) by lia.
  by rewrite take_app_length.
Qed.

Lemma isdigit_range c : isdigit c = true → (48 <= c <= 57)%N.
Proof. unfold isdigit. rewrite andb_true_iff, !N.leb_le. done. Qed.

Lemma isdigit_not_space c : isdigit c = true → isspace c = false.
Proof.
  intros H%isdigit_range. unfold isspace.
  repeat match goal with
         | |- context [(?a <=? ?b)%N] => destruct (N.leb_spec a b); try lia
         | |- context [(?a =? ?b)%N] => destruct (N.eqb_spec a b); try lia
         end; simpl; try done.
Qed.

Lemma lstrip_id c s : isspace c = false → lstrip (c :: s) = c :: s.
Proof. intros H. simpl. by rewrite H. Qed.

Lemma strip_digits s : forallb isdigit s = true → strip s = s.
Proof.
  intros H. unfold strip.
  assert (∀ t, forallb isdigit t = true → lstrip t = t) as Hl.
  { intros [|c t] Ht; [done|]. simpl in Ht. apply andb_true_iff in Ht as [Hc _].
    by apply lstrip_id, isdigit_not_space. }
  rewrite (Hl s H), Hl, rev_involutive; [done|].
  rewrite forallb_forall in *. intros x Hx. apply H. by apply in_rev.
Qed.

Lemma int_digits_total s :
  forallb isdigit s = true →
  ∀ a b, b = true ∨ s ≠ [] → ∃ n, int_digits a b s = Some n.
Proof.
  induction s as [|c s IH]; intros H a b Hb; simpl.
  - destruct Hb as [->|?]; [by eexists|done].
  - simpl in H. apply andb_true_iff in H as [-> Hs].
    apply IH; auto.
Qed.

(** [int] succeeds on a non-empty string of digits. *)
Lemma int_digits_ok s :
  forallb isdigit s = true → s ≠ [] → (length s <= 4300)%nat →
  ∃ n, int s = OK n.
Proof.
  intros H Hne Hlen. unfold int. rewrite strip_digits by done.
  assert ((int_max_str_digits <? Z.of_nat (length (List.filter isdigit s)))
          = false) as ->.
  { pose proof (filter_length_le isdigit s). unfold int_max_str_digits.
    apply Z.ltb_ge. lia. }
  destruct s as [|c s]; [done|]. unfold int_signed.
  pose proof H as Hc. simpl in Hc. apply andb_true_iff in Hc as [Hc _].
  apply isdigit_range in Hc.
  destruct (N.eqb_spec c 45) as [?|_]; [lia|].
  destruct (N.eqb_spec c 43) as [?|_]; [lia|].
  destruct (int_digits_total (c :: s) H 0 false) as [v ->]; [by right|].
  by exists v.
Qed.

(** C8: for a file name made of [awstats], two digits, four digits, a
    dot, any website name and [.txt], the website name, year and month
    that [process_file] takes by splitting and slicing are the ones that
    the forced reset of that file takes by cutting the extension and
    matching the regular expression: the name is the website name, the
    year the value of the four digits, the month the value of the two. *)
Theorem filename_parsers_agree (mm yyyy name : list N) :
  length mm = 2%nat →
  length yyyy = 4%nat →
  forallb isdigit mm = true →
  forallb isdigit yyyy = true →
  let filename := u "awstats" ++ mm ++ yyyy ++ u "." ++ name ++ u ".txt" in
  ∃ year month,
    int yyyy = OK year
    ∧ int mm = OK month
    ∧ filename_website filename = name
    ∧ filename_year filename = OK year
    ∧ filename_month filename = OK month
    ∧ forced_file_key filename = OK (Some (name, year, month)).
Proof.
  intros Hm Hy Dm Dy filename.
  destruct (int_digits_ok yyyy Dy) as [year Hyear];
    [by destruct yyyy | lia |].
  destruct (int_digits_ok mm Dm) as [month Hmonth];
    [by destruct mm | lia |].
  exists year, month. split; [done|]. split; [done|].
  destruct mm as [|m1 [|m2 [|]]]; try done.
  destruct yyyy as [|y1 [|y2 [|y3 [|y4 [|]]]]]; try done.
  set (stamp := u "awstats" ++ [m1; m2; y1; y2; y3; y4]).
  assert (46%N ∉ stamp) as Hdot.
  { cbn [forallb] in Dm, Dy.
    rewrite !andb_true_iff in Dm. rewrite !andb_true_iff in Dy.
    destruct Dm as (?%isdigit_range & ?%isdigit_range & _).
    destruct Dy as (?%isdigit_range & ?%isdigit_range & ?%isdigit_range
                    & ?%isdigit_range & _).
    subst stamp. change (u "awstats") with [97; 119; 115; 116; 97; 116; 115]%N.
    simpl. rewrite !not_elem_of_cons. repeat split; try lia.
    apply not_elem_of_nil. }
  assert (filename = stamp ++ 46%N :: name ++ 46%N :: u "txt") as Hf1
    by reflexivity.
  assert (filename = (stamp ++ 46%N :: name) ++ u ".txt") as Hf2.
  { rewrite Hf1. by rewrite <- app_assoc. }
  assert (filename_website filename = name) as Hw.
  { unfold filename_website. rewrite Hf1.
    rewrite split_on_app, (split_on_no_sep _ stamp) by done.
    rewrite split_on_app. simpl.
    rewrite app_comm_cons, drop_last_app by done.
    unfold slice_from. simpl. apply join_split_on. }
  assert (filename_year filename = OK year) as Hfy by exact Hyear.
  assert (filename_month filename = OK month) as Hfm by exact Hmonth.
  do 3 (split; [done|]).
  unfold forced_file_key. rewrite Hf2, drop_last_app by done.
  rewrite split_on_app, (split_on_no_sep _ stamp) by done.
  pose proof (split_on_nonempty 46 name) as Hne.
  pose proof (join_split_on 46 name) as Hj.
  destruct (split_on 46 name) as [|w ws] eqn:Hsp; [done|].
  cbn [app length Nat.ltb Nat.leb slice_from drop].
  change (u ".") with [46%N]. rewrite Hj.
  assert (match_awstats (stamp ++ 46%N :: name)
          = Some ([m1; m2], [y1; y2; y3; y4])) as ->.
  { unfold match_awstats. subst stamp.
    change (u "awstats") with [97; 119; 115; 116; 97; 116; 115]%N.
    cbn [app slice take drop Nat.sub startswith length Nat.eqb N.eqb
         Pos.eqb andb forallb].
    cbn [forallb] in Dm, Dy.
    rewrite !andb_true_iff in Dm. rewrite !andb_true_iff in Dy.
    destruct Dm as (-> & -> & _). by destruct Dy as (-> & -> & -> & -> & _). }
  rewrite Hmonth, Hyear. done.
Qed.

Lemma filename_parsers_agree_witness :
  ∃ year month,
    int (u "2024") = OK year
    ∧ int (u "03") = OK month
    ∧ filename_website (u "awstats032024.example.com.txt")
      = u "example.com"
    ∧ filename_year (u "awstats032024.example.com.txt") = OK year
    ∧ filename_month (u "awstats032024.example.com.txt") = OK month
    ∧ forced_file_key (u "awstats032024.example.com.txt")
      = OK (Some (u "example.com", year, month)).
Proof.
  apply (filename_parsers_agree (u "03") (u "2024") (u "example.com"));
    reflexivity.
Defined.

(** ** The record decoder *)

Lemma normalize_url_eq url :
  unquote
    (let url1 := if startswith url (u "/") then slice_from 1 url else url in
     if startswith url1 (u "wiki/")
     then slice_from (length (u "wiki/")) url1 else url1)
  = normalize_url url.
Proof. reflexivity. Qed.

(** One turn of the loop of [parse_pos_sider] on a line before the
    END_SIDER marker. *)
Lemma parse_pos_sider_loop_step pats raw rest acc line :
  line_text raw = OK line →
  startswith line (u "END_SIDER") = false →
  parse_pos_sider_loop pats (raw :: rest) acc
  = if accepted pats line then
      match counters line with
      | OK [p; b; e; x] =>
          parse_pos_sider_loop pats rest
            (acc ++ [mkData (normalize_url (nth 0 (split line) [])) p b e x])
      | OK _ => Raise ValueError
      | Raise e => Raise e
      end
    else parse_pos_sider_loop pats rest acc.
Proof.
  unfold line_text. intros Hl He. cbn [parse_pos_sider_loop].
  destruct (decode_utf8 raw) as [l|]; simpl in Hl; [|done].
  injection Hl as <-. cbn [rbind]. rewrite He.
  unfold accepted, counters.
  destruct (negb (startswith (strip l) (u "#"))
            && negb (startswith (strip l) (u "BEGIN_SIDER"))); [|done].
  cbn [andb].
  destruct (length (split (strip l)) =? 5)%nat; [|done]. cbn [andb].
  rewrite normalize_url_eq.
  destruct (should_ignore_url pats _); [done|]. cbn [negb].
  unfold slice_from.
  destruct (map_int (drop 1 (split (strip l)))) as [ints|]; [|done].
  cbn [rbind]. by destruct ints as [|? [|? [|? [|? [|]]]]].
Qed.

Lemma parse_pos_sider_loop_end pats raw rest acc line :
  line_text raw = OK line →
  startswith line (u "END_SIDER") = true →
  parse_pos_sider_loop pats (raw :: rest) acc = OK acc.
Proof.
  unfold line_text. intros Hl He. cbn [parse_pos_sider_loop].
  destruct (decode_utf8 raw) as [l|]; simpl in Hl; [|done].
  injection Hl as <-. cbn [rbind]. by rewrite He.
Qed.

Lemma int_raises s e : int s = Raise e → e = ValueError.
Proof.
  unfold int. destruct (int_signed _); [|congruence].
  destruct (_ <? _); congruence.
Qed.

Lemma map_int_raises parts e : map_int parts = Raise e → e = ValueError.
Proof.
  induction parts as [|p parts IH]; simpl; [done|].
  destruct (int p) eqn:Hp; simpl; [|intros [= <-]; by eapply int_raises].
  destruct (map_int parts); simpl; [done|]. intros [= <-]. by apply IH.
Qed.

Lemma map_int_length parts ns :
  map_int parts = OK ns → length ns = length parts.
Proof.
  revert ns. induction parts as [|p parts IH]; intros ns; simpl.
  - by intros [= <-].
  - destruct (int p); simpl; [|done].
    destruct (map_int parts); simpl; [|done].
    intros [= <-]. simpl. f_equal. by apply IH.
Qed.

(** An accepted line has four counter fields. *)
Lemma accepted_counters pats line ns :
  accepted pats line = true → counters line = OK ns →
  ∃ p b e x, ns = [p; b; e; x].
Proof.
  unfold accepted, counters. rewrite !andb_true_iff.
  intros [[[_ _] Hlen%Nat.eqb_eq] _] Hns%map_int_length.
  rewrite length_drop, Hlen in Hns.
  destruct ns as [|p [|b [|e [|x [|]]]]]; try done. by exists p, b, e, x.
Qed.

Lemma sider_region_cons raw rest region :
  sider_region (raw :: rest) = OK region →
  ∃ line, line_text raw = OK line
    ∧ ((startswith line (u "END_SIDER") = true ∧ region = [])
       ∨ (startswith line (u "END_SIDER") = false
          ∧ ∃ region', sider_region rest = OK region'
                       ∧ region = line :: region')).
Proof.
  cbn [sider_region]. destruct (line_text raw) as [line|]; [|done].
  cbn [rbind]. intros H. exists line. split; [done|].
  destruct (startswith line (u "END_SIDER")).
  - injection H as <-. by left.
  - destruct (sider_region rest) as [region'|]; [|done]. cbn [rbind] in H.
    injection H as <-. right. split; [done|]. by exists region'.
Qed.

(** When every accepted line of the section has integer counters, the
    loop returns the records it was given followed by one record per
    accepted line, in order. *)
Lemma parse_pos_sider_loop_ok pats lines acc region :
  sider_region lines = OK region →
  forallb (λ l, is_ok (counters l)) (List.filter (accepted pats) region)
  = true →
  ∃ recs, parse_pos_sider_loop pats lines acc = OK (acc ++ recs)
          ∧ Forall2 decodes_to (List.filter (accepted pats) region) recs.
Proof.
  revert acc region. induction lines as [|raw rest IH]; intros acc region.
  - intros [= <-] _. exists []. simpl. rewrite app_nil_r. by split.
  - intros (line & Hl & [[He ->]|(He & region' & Hr & ->)])%sider_region_cons.
    + intros _. exists []. rewrite app_nil_r.
      split; [by eapply parse_pos_sider_loop_end|by constructor].
    + rewrite (parse_pos_sider_loop_step pats raw rest acc line Hl He).
      cbn [List.filter].
      destruct (accepted pats line) eqn:Ha; [|by apply IH].
      cbn [forallb]. intros [Hc Hrest]%andb_true_iff.
      destruct (counters line) as [ns|] eqn:Hn; [|done].
      destruct (accepted_counters pats line ns Ha Hn)
        as (p & b & e & x & ->).
      destruct (IH (acc ++ [mkData (normalize_url (nth 0 (split line) []))
                              p b e x]) region' Hr Hrest)
        as (recs & -> & HF).
      eexists (_ :: recs). rewrite <- app_assoc. split; [reflexivity|].
      constructor; [|done]. by split.
Qed.

(** When some accepted line of the section has a counter that is not an
    integer, the loop raises [ValueError]. *)
Lemma parse_pos_sider_loop_raises pats lines acc region :
  sider_region lines = OK region →
  existsb (λ l, accepted pats l && negb (is_ok (counters l))) region = true →
  parse_pos_sider_loop pats lines acc = Raise ValueError.
Proof.
  revert acc region. induction lines as [|raw rest IH]; intros acc region.
  - by intros [= <-].
  - intros (line & Hl & [[He ->]|(He & region' & Hr & ->)])%sider_region_cons;
      [done|].
    rewrite (parse_pos_sider_loop_step pats raw rest acc line Hl He).
    cbn [existsb].
    destruct (accepted pats line) eqn:Ha; cbn [andb orb]; [|by apply IH].
    destruct (counters line) as [ns|e] eqn:Hn; cbn [is_ok negb orb].
    + destruct (accepted_counters pats line ns Ha Hn)
        as (p & b & e & x & ->). by apply IH.
    + intros _. by rewrite (map_int_raises _ _ Hn).
Qed.

Lemma seek_ok file pos :
  0 <= pos < 2 ^ 63 →
  pos <= Z.of_nat (length file) ∨ pos <= max_offset →
  seek max_offset file pos = OK (drop (Z.to_nat pos) file).
Proof.
  intros H Hin. unfold seek.
  destruct (Z.ltb_spec pos (- 2 ^ 63)); [lia|].
  destruct (Z.leb_spec (2 ^ 63) pos); [lia|].
  destruct (Z.ltb_spec pos 0); [lia|]. cbn [orb].
  destruct (Z.leb_spec pos (Z.of_nat (length file))); [done|].
  destruct (Z.leb_spec pos max_offset); [done|lia].
Qed.

(** A section with a line in it starts inside the file. *)
Lemma sider_region_inside file pos region :
  0 <= pos →
  sider_region (readlines (drop (Z.to_nat pos) file)) = OK region →
  region ≠ [] →
  pos <= Z.of_nat (length file).
Proof.
  intros Hpos Hr Hne.
  destruct (Z.leb_spec pos (Z.of_nat (length file))) as [|Hgt]; [done|].
  rewrite drop_ge in Hr by lia. cbn in Hr. congruence.
Qed.

(** C2, amended: for an offset that [seek] accepts (not negative, below
    2^63, and within the file or not past the largest offset of the file
    system) and a section whose lines decode: when every accepted line
    (not a comment, not the BEGIN_SIDER marker, five fields, URL not
    ignored) has integer counters, [parse_pos_sider] returns exactly one
    record per accepted line before the END_SIDER marker, in file order,
    with the normalized URL and the four counters of the line, and the
    other lines give no record and no error; when an accepted line has a
    counter that is not an integer, [parse_pos_sider] raises
    [ValueError].  The raw field [wiki/Some%20Page] is stored as
    [Some Page]. *)
Theorem parse_pos_sider_spec
    (pats : list (list N)) (file : list N) (pos : Z)
    (region : list (list N)) :
  0 <= pos < 2 ^ 63 →
  pos <= Z.of_nat (length file) ∨ pos <= max_offset →
  sider_region (readlines (drop (Z.to_nat pos) file)) = OK region →
  (forallb (λ l, is_ok (counters l)) (List.filter (accepted pats) region)
   = true →
   ∃ recs, parse_pos_sider pats file pos = OK recs
           ∧ Forall2 decodes_to (List.filter (accepted pats) region) recs)
  ∧ (existsb (bad_counter_line pats) region = true →
     parse_pos_sider pats file pos = Raise ValueError)
  ∧ normalize_url (u "wiki/Some%20Page") = u "Some Page"
  ∧ parse_pos_sider [] (text ["wiki/Some%20Page 1 2 3 4"]%string) 0
    = OK [mkData (u "Some Page") 1 2 3 4].
Proof.
  intros Hpos Hin Hr. split; [|split].
  - intros Hc. unfold parse_pos_sider. rewrite seek_ok by done. cbn [rbind].
    destruct (parse_pos_sider_loop_ok pats _ [] region Hr Hc)
      as (recs & H & HF).
    by exists recs.
  - intros Hb. unfold parse_pos_sider. rewrite seek_ok by done. cbn [rbind].
    by rewrite (parse_pos_sider_loop_raises pats _ [] region Hr Hb).
  - split; [done|].
    unfold parse_pos_sider. rewrite seek_ok by (cbn; lia). done.
Qed.

(** The other two conditions of the amended C2 are needed as well: a
    negative offset makes [seek] raise, and a comment line that is not
    UTF-8 makes the decoder raise although the line carries no record. *)
Lemma parse_pos_sider_negative_offset :
  parse_pos_sider [] sample_report (-1) = Raise OSError.
Proof. reflexivity. Qed.

Lemma parse_pos_sider_invalid_utf8 :
  parse_pos_sider [] (u "# caf" ++ [233%N; 10%N] ++ text ["END_SIDER"]%string) 0
  = Raise UnicodeDecodeError.
Proof. reflexivity. Qed.

(** ** Structural errors *)

Lemma process_listing_listed pats clock args directory server_id file rest db :
  listed args file = true →
  process_listing pats clock args directory server_id (file :: rest) db
  = match process_file pats file server_id (args_force args)
            (clock directory (f_name file)) db with
    | (OK _, db') =>
        process_listing pats clock args directory server_id rest db'
    | (Raise e, db') => (Raise e, db')
    end.
Proof.
  unfold listed. rewrite andb_true_iff, negb_true_iff. intros [H1 H2].
  cbn [process_listing]. cbv zeta. rewrite H1.
  unfold slice_from in *. rewrite H2. unfold bind.
  by destruct (process_file _ _ _ _ _ _) as [[|] ?].
Qed.

Lemma ingest_section_not_found pats file server_id now db positions :
  parse_begin_map (f_content file) = OK positions →
  positions !! u "POS_SIDER" = None →
  ingest pats file server_id now db = (OK SectionNotFound, db).
Proof. intros Hp Hs. unfold ingest; munfold. rewrite Hp. simpl. by rewrite Hs. Qed.

Lemma ingest_bad_counter pats file server_id now db positions pos region :
  parse_begin_map (f_content file) = OK positions →
  positions !! u "POS_SIDER" = Some pos →
  0 <= pos < 2 ^ 63 →
  sider_region (readlines (drop (Z.to_nat pos) (f_content file)))
  = OK region →
  existsb (bad_counter_line pats) region = true →
  ingest pats file server_id now db = (Raise ValueError, db).
Proof.
  intros Hp Hs Hpos Hr Hb. unfold ingest; munfold. rewrite Hp. simpl.
  rewrite Hs. unfold parse_pos_sider. rewrite seek_ok; [|done|].
  - cbn [rbind].
    by rewrite (parse_pos_sider_loop_raises pats _ [] region Hr Hb).
  - left. apply (sider_region_inside _ _ region); [lia|done|].
    intros ->. by cbn in Hb.
Qed.

(** C4, amended: take a file that passes the gate and whose index can be
    read.  When the index has no POS_SIDER entry, [process_file] reports
    it and returns with the store untouched (no stats merged, no
    fingerprint recorded), and the loop over the directory goes on with
    the next entry.  When an accepted line of the section has a counter
    that is not an integer, [process_file] raises [ValueError] with the
    store untouched, and the exception leaves the loop over the
    directory: the entries after the file are not processed. *)
Theorem structural_error_spec
    (pats : list (list N)) (clock : list N → list N → Z) (args : Args)
    (directory : list N) (server_id : Z) (file : File) (rest : list File)
    (db : DB) (positions : gmap (list N) Z) :
  listed args file = true →
  negb (args_force args) && fingerprint_matches db file server_id = false →
  parse_begin_map (f_content file) = OK positions →
  (positions !! u "POS_SIDER" = None →
   process_file pats file server_id (args_force args)
     (clock directory (f_name file)) db = (OK SectionNotFound, db)
   ∧ process_listing pats clock args directory server_id (file :: rest) db
     = process_listing pats clock args directory server_id rest db)
  ∧ (∀ pos region,
       positions !! u "POS_SIDER" = Some pos →
       0 <= pos < 2 ^ 63 →
       sider_region (readlines (drop (Z.to_nat pos) (f_content file)))
       = OK region →
       existsb (bad_counter_line pats) region = true →
       process_file pats file server_id (args_force args)
         (clock directory (f_name file)) db = (Raise ValueError, db)
       ∧ process_listing pats clock args directory server_id (file :: rest) db
         = (Raise ValueError, db)).
Proof.
  intros Hl Hg Hp. split.
  - intros Hs.
    rewrite (process_listing_listed _ _ _ _ _ _ _ _ Hl).
    rewrite process_file_unfold, Hg.
    by rewrite (ingest_section_not_found _ _ _ _ _ _ Hp Hs).
  - intros pos region Hs Hpos Hr Hb.
    rewrite (process_listing_listed _ _ _ _ _ _ _ _ Hl).
    rewrite process_file_unfold, Hg.
    by rewrite (ingest_bad_counter _ _ _ _ _ _ _ _ Hp Hs Hpos Hr Hb).
Qed.

(** ** Ignore filtering *)

Lemma startswith_prefix s p : startswith s p = true ↔ ∃ t, s = p ++ t.
Proof.
  revert s. induction p as [|a p IH]; intros s.
  - split; [intros _; by exists s|intros _; by destruct s].
  - destruct s as [|b s].
    + split; [done|]. by intros [t ?].
    + cbn [startswith]. rewrite andb_true_iff, N.eqb_eq, IH. split.
      * intros [-> [t ->]]. by exists t.
      * intros [t [= -> ->]]. split; [done|]. by exists t.
Qed.

Lemma should_ignore_url_true pats url :
  should_ignore_url pats url = true
  ↔ url = [] ∨ url = u "/" ∨ ∃ p t, p ∈ pats ∧ url = p ++ t.
Proof.
  unfold should_ignore_url.
  rewrite orb_true_iff, bool_decide_eq_true, existsb_exists.
  rewrite !elem_of_cons, elem_of_nil. split.
  - intros [[H|[H|[]]]|(p & Hin & Hp)].
    + left. exact H.
    + right; left. exact H.
    + right; right. apply startswith_prefix in Hp as [t ->].
      exists p, t. split; [by apply list_elem_of_In|done].
  - intros [H|[H|(p & t & Hin & ->)]].
    + left; left. exact H.
    + left; right; left. exact H.
    + right. exists p. split; [by apply list_elem_of_In|].
      apply startswith_prefix. by exists t.
Qed.

(** Every record that the loop of [parse_pos_sider] adds has a URL that
    is not ignored. *)
Lemma parse_pos_sider_loop_not_ignored pats lines acc recs :
  parse_pos_sider_loop pats lines acc = OK recs →
  Forall (λ r, should_ignore_url pats (data_url r) = false) acc →
  Forall (λ r, should_ignore_url pats (data_url r) = false) recs.
Proof.
  revert acc. induction lines as [|raw rest IH]; intros acc.
  - by intros [= <-].
  - cbn [parse_pos_sider_loop].
    destruct (decode_utf8 raw) as [l|]; [|done]. cbn [rbind].
    destruct (startswith (strip l) (u "END_SIDER")); [by intros [= <-]|].
    destruct (negb _ && negb _); [|by apply IH].
    destruct (length (split (strip l)) =? 5)%nat; [|by apply IH].
    rewrite normalize_url_eq.
    destruct (should_ignore_url pats _) eqn:Hi; [by apply IH|].
    destruct (map_int _) as [ints|]; [|done]. cbn [rbind].
    destruct ints as [|? [|? [|? [|? [|]]]]]; try done.
    intros H Hacc. apply (IH _ H). apply Forall_app. split; [done|].
    by constructor.
Qed.

Lemma parse_pos_sider_not_ignored pats file pos recs :
  parse_pos_sider pats file pos = OK recs →
  Forall (λ r, should_ignore_url pats (data_url r) = false) recs.
Proof.
  unfold parse_pos_sider. destruct (seek max_offset file pos); [|done]. cbn [rbind].
  intros H. by eapply parse_pos_sider_loop_not_ignored.
Qed.

(** An ingestion creates URL rows and touches stats only for URLs that
    are not ignored. *)
Lemma ingest_not_ignored pats file server_id now db :
  (∀ id row,
     website_url (ingest pats file server_id now db).2 !! id = Some row →
     website_url db !! id = Some row
     ∨ should_ignore_url pats row.2 = false)
  ∧ (∀ k,
       website_url_stats (ingest pats file server_id now db).2 !! k
       ≠ website_url_stats db !! k →
       ∃ row,
         website_url (ingest pats file server_id now db).2 !! key_url_id k
         = Some row
         ∧ should_ignore_url pats row.2 = false).
Proof.
  unfold ingest, get_website_id, update_file_tracking; munfold.
  destruct (parse_begin_map (f_content file)) as [positions|]; simpl;
    [|by split; [left|]].
  destruct (positions !! u "POS_SIDER") as [off|]; simpl;
    [|by split; [left|]].
  destruct (parse_pos_sider pats (f_content file) off) as [sider|] eqn:Hp;
    simpl; [|by split; [left|]].
  destruct (websites db !! _) as [w|]; simpl; [|by split; [left|]].
  destruct (filename_year _) as [y|]; simpl; [|by split; [left|]].
  destruct (filename_month _) as [m|]; simpl; [|by split; [left|]].
  destruct (merge_sider_data_effect w server_id y m sider db)
    as (db' & -> & _ & _ & _ & Hn & Hs). simpl.
  apply parse_pos_sider_not_ignored in Hp.
  rewrite Forall_forall in Hp.
  assert (∀ url, url ∈ data_url <$> sider →
                 should_ignore_url pats url = false) as Hurl.
  { intros url (r & -> & Hr)%list_elem_of_fmap. by apply Hp. }
  split.
  - intros id row Hrow. destruct (Hn id row Hrow) as [?|[_ Hin]]; [by left|].
    right. by apply Hurl.
  - intros k Hk. destruct (Hs k Hk) as (url & Hin & Hrow).
    exists (w, url). split; [done|]. by apply Hurl.
Qed.

(** C5: [should_ignore_url] answers true exactly for the empty URL, for
    ["/"] and for the URLs that start with one of the ignore prefixes.
    No record returned by [parse_pos_sider] has such a URL, and so
    [process_file] creates no [website_url] row for such a URL and
    changes stats only under identifiers of URLs that are not ignored. *)
Theorem should_ignore_url_spec (pats : list (list N)) :
  (∀ url,
     should_ignore_url pats url = true
     ↔ url = [] ∨ url = u "/" ∨ ∃ p t, p ∈ pats ∧ url = p ++ t)
  ∧ (∀ url,
       should_ignore_url pats url = false
       ↔ ¬ (url = [] ∨ url = u "/" ∨ ∃ p t, p ∈ pats ∧ url = p ++ t))
  ∧ (∀ file pos recs,
       parse_pos_sider pats file pos = OK recs →
       ∀ r, r ∈ recs → should_ignore_url pats (data_url r) = false)
  ∧ (∀ file server_id force now db id website_id url,
       website_url (process_file pats file server_id force now db).2 !! id
       = Some (website_id, url) →
       should_ignore_url pats url = true →
       website_url db !! id = Some (website_id, url))
  ∧ (∀ file server_id force now db k,
       website_url_stats (process_file pats file server_id force now db).2
       !! k ≠ website_url_stats db !! k →
       ∃ website_id url,
         website_url (process_file pats file server_id force now db).2
         !! key_url_id k = Some (website_id, url)
         ∧ should_ignore_url pats url = false).
Proof.
  split; [apply should_ignore_url_true|].
  split.
  { intros url. rewrite <- should_ignore_url_true.
    by destruct (should_ignore_url pats url). }
  split.
  { intros file pos recs H r Hr.
    apply parse_pos_sider_not_ignored in H.
    rewrite Forall_forall in H. by apply H. }
  split.
  - intros file server_id force now db id w url.
    rewrite process_file_unfold.
    destruct (negb force && fingerprint_matches db file server_id); [done|].
    intros Hrow Hi.
    destruct (proj1 (ingest_not_ignored pats file server_id now db)
                id (w, url) Hrow) as [?|Hf]; [done|].
    simpl in Hf. congruence.
  - intros file server_id force now db k.
    rewrite process_file_unfold.
    destruct (negb force && fingerprint_matches db file server_id); [done|].
    intros Hk.
    destruct (proj2 (ingest_not_ignored pats file server_id now db) k Hk)
      as ([w url] & Hrow & Hf).
    by exists w, url.
Qed.

(** * Further properties *)

(** ** Fingerprints *)

(** X1: a fingerprint written by [update_file_tracking] is what
    [has_file_been_processed] compares with afterwards: the answer is
    truthy exactly for the recorded time, a later write for the same
    (filename, server_id) replaces the earlier one, and the answer for
    every other (filename, server_id) is as before the write. *)
Theorem tracking_round_trip
    (filename : list N) (server_id last_modified now : Z) (db : DB) :
  let db1 := (update_file_tracking filename server_id last_modified now db).2 in
  (∀ t, has_file_been_processed filename server_id t false db1
        = (OK (PyBool (last_modified =? t)), db1))
  ∧ (∀ t now',
       update_file_tracking filename server_id t now' db1
       = update_file_tracking filename server_id t now' db)
  ∧ (∀ filename' server_id' t,
       (filename', server_id') ≠ (filename, server_id) →
       (has_file_been_processed filename' server_id' t false db1).1
       = (has_file_been_processed filename' server_id' t false db).1)
  ∧ websites db1 = websites db
  ∧ website_url db1 = website_url db
  ∧ website_url_stats db1 = website_url_stats db.
Proof.
  unfold update_file_tracking, has_file_been_processed; munfold.
  split; [intros t; by rewrite lookup_insert_eq|].
  split; [intros t now'; by rewrite insert_insert_eq|].
  split; [|done].
  intros filename' server_id' t Hne.
  rewrite lookup_insert_ne; [|intros E; by apply Hne].
  by destruct (file_tracking db !! (filename', server_id')).
Qed.

(** ** One file, all or nothing *)

Lemma ingest_processed pats file server_id now db :
  (ingest pats file server_id now db).1 = OK Processed →
  ∃ positions pos sider_data website_id year month db',
    parse_begin_map (f_content file) = OK positions
    ∧ positions !! u "POS_SIDER" = Some pos
    ∧ parse_pos_sider pats (f_content file) pos = OK sider_data
    ∧ websites db !! filename_website (f_name file) = Some website_id
    ∧ filename_year (f_name file) = OK year
    ∧ filename_month (f_name file) = OK month
    ∧ merge_sider_data website_id server_id year month sider_data db
      = (OK tt, db')
    ∧ (ingest pats file server_id now db).2
      = mkDB (websites db') (website_url db') (website_url_stats db')
          (<[(f_name file, server_id)
             := Tracking (file_last_modified file) now]> (file_tracking db')).
Proof.
  unfold ingest, get_website_id, update_file_tracking; munfold.
  destruct (parse_begin_map (f_content file)) as [positions|]; simpl;
    [|done].
  destruct (positions !! u "POS_SIDER") as [pos|] eqn:Hpos; simpl; [|done].
  destruct (parse_pos_sider pats (f_content file) pos) as [sider|] eqn:Hp;
    simpl; [|done].
  destruct (websites db !! _) as [w|] eqn:Hw; simpl; [|done].
  destruct (filename_year _) as [y|]; simpl; [|done].
  destruct (filename_month _) as [m|]; simpl; [|done].
  destruct (merge_sider_data_effect w server_id y m sider db)
    as (db' & Hm & _). rewrite Hm. simpl. intros _.
  by exists positions, pos, sider, w, y, m, db'.
Qed.

(** X2: [process_file] writes only when it reports success.  Whenever
    it returns anything else (skipped, section missing) or raises, the
    store is exactly as before.  When it reports success, [websites] is
    unchanged, the fingerprint of the file is its modification time in
    whole seconds with the clock reading, and every other fingerprint is
    as before. *)
Theorem process_file_all_or_nothing
    (pats : list (list N)) (file : File) (server_id : Z) (force : bool)
    (now : Z) (db : DB) :
  let r := process_file pats file server_id force now db in
  (r.1 ≠ OK Processed → r.2 = db)
  ∧ (r.1 = OK Processed →
     websites r.2 = websites db
     ∧ file_tracking r.2
       = <[(f_name file, server_id)
           := Tracking (file_last_modified file) now]> (file_tracking db)).
Proof.
  intros r. subst r. rewrite process_file_unfold.
  destruct (negb force && fingerprint_matches db file server_id); [done|].
  split.
  - intros Hne.
    destruct (ingest_outcome pats file server_id now db)
      as [(Hdb & _ & _)|(Hok & _)]; [done|by rewrite Hok in Hne].
  - intros (positions & pos & sider & w & y & m & db' & _ & _ & _ & _ & _ & _
            & Hm & ->)%ingest_processed. simpl.
    destruct (merge_sider_data_effect w server_id y m sider db)
      as (db'' & Hm' & Hw & Hf & _).
    rewrite Hm in Hm'. injection Hm' as <-. by rewrite Hw, Hf.
Qed.

(** ** Identifier resolution, continued *)

Lemma select_url_id_found t w url id :
  t !! id = Some (w, url) → ∃ id', select_url_id t w url = Some id'.
Proof.
  intros H. destruct (select_url_id t w url) as [id'|] eqn:E; [by exists id'|].
  by apply (select_url_id_None _ _ _ id) in E.
Qed.

Lemma get_or_create_effect w url db :
  ∃ id db',
    get_or_create_website_url_id w url db = (OK id, db')
    ∧ website_url db' !! id = Some (w, url)
    ∧ urls_kept db db'
    ∧ (∀ i row, website_url db' !! i = Some row →
                website_url db !! i = Some row ∨ (i = id ∧ row = (w, url)))
    ∧ websites db' = websites db
    ∧ website_url_stats db' = website_url_stats db
    ∧ file_tracking db' = file_tracking db
    ∧ ((∃ i, website_url db !! i = Some (w, url)) → db' = db).
Proof.
  unfold get_or_create_website_url_id; munfold.
  destruct (select_url_id (website_url db) w url) as [id|] eqn:E; simpl.
  - exists id, db. apply select_url_id_Some in E.
    split; [done|]. split; [done|]. split; [by intros i row Hi|].
    split; [intros i row Hi; by left|]. done.
  - pose proof (lastrowid_fresh (website_url db)) as Hfresh.
    eexists _, _. split; [reflexivity|]. simpl.
    split; [by rewrite lookup_insert_eq|].
    split.
    { intros i row Hi. simpl. rewrite lookup_insert_ne; [done|].
      intros <-. by rewrite Hfresh in Hi. }
    split.
    { intros i row Hi. simpl in Hi.
      destruct (decide (lastrowid (website_url db) = i)) as [<-|Hne].
      - rewrite lookup_insert_eq in Hi. injection Hi as <-. by right.
      - rewrite lookup_insert_ne in Hi by done. by left. }
    do 3 (split; [done|]).
    intros [i Hi]. by apply (select_url_id_None _ _ _ i) in E.
Qed.

Lemma get_or_create_unique w url db :
  url_unique db → url_unique (get_or_create_website_url_id w url db).2.
Proof.
  intros Hu.
  unfold get_or_create_website_url_id; munfold.
  destruct (select_url_id (website_url db) w url) as [id|] eqn:E; simpl;
    [done|].
  intros i1 i2 row H1 H2. simpl in *.
  set (id := lastrowid (website_url db)) in *.
  destruct (decide (id = i1)) as [<-|N1], (decide (id = i2)) as [<-|N2];
    [done| | |].
  - rewrite lookup_insert_eq in H1. injection H1 as <-.
    rewrite lookup_insert_ne in H2 by done.
    by apply (select_url_id_None _ _ _ i2) in E.
  - rewrite lookup_insert_eq in H2. injection H2 as <-.
    rewrite lookup_insert_ne in H1 by done.
    by apply (select_url_id_None _ _ _ i1) in E.
  - rewrite lookup_insert_ne in H1, H2 by done. by eapply Hu.
Qed.

(** X3: [get_or_create_website_url_id] always answers with the identifier
    of a row that carries the given website and URL, keeps every row
    that was there, writes no other table, and is stable: asked again
    for the same website and URL it gives the same identifier and
    changes nothing. *)
Theorem get_or_create_stable (website_id : Z) (url : list N) (db : DB) :
  ∃ id db',
    get_or_create_website_url_id website_id url db = (OK id, db')
    ∧ website_url db' !! id = Some (website_id, url)
    ∧ urls_kept db db'
    ∧ websites db' = websites db
    ∧ website_url_stats db' = website_url_stats db
    ∧ file_tracking db' = file_tracking db
    ∧ get_or_create_website_url_id website_id url db' = (OK id, db').
Proof.
  destruct (get_or_create_effect website_id url db)
    as (id & db' & Hrun & Hid & Hk & Hn & Hw & Hs & Hf & Hsame).
  exists id, db'. do 6 (split; [done|]).
  destruct (select_url_id (website_url db) website_id url) as [i|] eqn:E.
  - apply select_url_id_Some in E.
    rewrite (Hsame (ex_intro _ i E)) in *. done.
  - destruct (get_or_create_effect website_id url db')
      as (id2 & db2 & Hrun2 & Hid2 & _ & _ & _ & _ & _ & Hsame2).
    rewrite Hrun2. rewrite (Hsame2 (ex_intro _ id Hid)) in *.
    f_equal. f_equal.
    destruct (Hn id2 _ Hid2) as [Hold|[-> _]]; [|done].
    by apply (select_url_id_None _ _ _ id2) in E.
Qed.

(** ** What a whole run preserves *)

Section Preserved.

Variable R : DB → DB → Prop.
Hypothesis R_refl : ∀ db, R db db.
Hypothesis R_trans : ∀ a b c, R a b → R b c → R a c.
Hypothesis R_resolve :
  ∀ w url db, R db (get_or_create_website_url_id w url db).2.
Hypothesis R_stats :
  ∀ id sid y m data db, R db (update_server_stats id sid y m data db).2.
Hypothesis R_tracking :
  ∀ filename sid t now db, R db (update_file_tracking filename sid t now db).2.

Lemma merge_sider_data_preserves w sid y m l db :
  R db (merge_sider_data w sid y m l db).2.
Proof.
  revert db. induction l as [|d l IH]; intros db; [apply R_refl|].
  cbn [merge_sider_data]. unfold bind.
  pose proof (R_resolve w (data_url d) db) as H1.
  destruct (get_or_create_effect w (data_url d) db) as (id & db1 & E1 & _).
  rewrite E1 in *. simpl in H1.
  pose proof (R_stats id sid y m d db1) as H2.
  destruct (update_server_stats id sid y m d db1) as [[[]|e] db2] eqn:E2;
    simpl in *.
  - eapply R_trans; [exact H1|]. eapply R_trans; [exact H2|apply IH].
  - eapply R_trans; [exact H1|exact H2].
Qed.

Lemma process_file_preserves pats file sid force now db :
  R db (process_file pats file sid force now db).2.
Proof.
  rewrite process_file_unfold.
  destruct (negb force && fingerprint_matches db file sid); [apply R_refl|].
  destruct (ingest_outcome pats file sid now db) as [(-> & _)|(Hok & _)];
    [apply R_refl|].
  apply ingest_processed in Hok
    as (positions & pos & sider & w & y & m & db' & _ & _ & _ & _ & _ & _
        & Hm & ->).
  pose proof (merge_sider_data_preserves w sid y m sider db) as H1.
  rewrite Hm in H1. simpl in H1. eapply R_trans; [exact H1|].
  apply (R_tracking (f_name file) sid (file_last_modified file) now db').
Qed.

Lemma process_listing_preserves pats clock args directory sid entries db :
  R db (process_listing pats clock args directory sid entries db).2.
Proof.
  revert db. induction entries as [|file rest IH]; intros db; [apply R_refl|].
  cbn [process_listing]. cbv zeta.
  destruct (endswith _ _ && contains _ _); [|apply IH].
  destruct (given _ && negb _); [apply IH|].
  unfold bind.
  pose proof (process_file_preserves pats file sid (args_force args)
                (clock directory (f_name file)) db) as H.
  destruct (process_file _ _ _ _ _ _) as [[r|e] db1]; simpl in *; [|done].
  eapply R_trans; [exact H|apply IH].
Qed.

Lemma process_directories_preserves pats fs clock args dirs db :
  R db (process_directories pats fs clock args dirs db).2.
Proof.
  revert db. induction dirs as [|directory rest IH]; intros db;
    [apply R_refl|].
  cbn [process_directories].
  destruct (get_server_id directory) as [sid|]; [|apply IH].
  unfold bind at 1.
  match goal with |- context [(if ?c then ?a else ?b) db] =>
    assert (R db ((if c then a else b) db).2) as H end.
  { destruct (given (args_file args)).
    - destruct (lookup_file fs directory _) as [file|]; [|apply R_refl].
      unfold bind, ret.
      pose proof (process_file_preserves pats file sid (args_force args)
                    (clock directory (f_name file)) db) as H.
      by destruct (process_file _ _ _ _ _ _) as [[r|e] db1].
    - unfold bind, lift.
      destruct (listdir fs directory) as [entries|]; [|apply R_refl].
      apply process_listing_preserves. }
  match goal with |- context [(if ?c then ?a else ?b) db] =>
    destruct ((if c then a else b) db) as [[[]|e] db1] end; simpl in *;
    [|done].
  eapply R_trans; [exact H|apply IH].
Qed.

Hypothesis R_reset : ∀ args db, R db (forced_reset args db).2.

Lemma main_preserves pats fs clock args db :
  R db (main pats fs clock args db).2.
Proof.
  unfold main. destruct (select_directories args) as [dirs|]; [|apply R_refl].
  unfold bind at 1.
  assert (R db (and_then (check_website args) (forced_reset args) db).2) as H.
  { revert db. apply and_then_preserves; [exact R_trans| |apply R_reset].
    intros db. rewrite check_website_state. apply R_refl. }
  destruct (and_then _ _ db) as [[[|]|e] db1]; simpl in *; try done.
  eapply R_trans; [exact H|]. apply process_directories_preserves.
Qed.

End Preserved.

Lemma forced_reset_same_frame args db : same_frame db (forced_reset args db).2.
Proof.
  unfold forced_reset. destruct (args_force args); [|done].
  revert db.
  apply and_then_preserves;
    [exact same_frame_trans | apply force_website_frame |].
  apply and_then_preserves;
    [exact same_frame_trans | apply force_server_frame |].
  apply and_then_preserves;
    [exact same_frame_trans | apply force_file_frame |
     apply force_all_frame].
Qed.

(** X4: a run of [main] never writes the [websites] table, whatever the
    command line, the files and the outcome, exceptions included: the
    pipeline creates no website and renames or removes none. *)
Theorem main_keeps_websites
    (pats : list (list N)) (fs : list (list N * list File))
    (clock : list N → list N → Z) (args : Args) (db : DB) :
  websites (main pats fs clock args db).2 = websites db.
Proof.
  apply (main_preserves (λ a b, websites b = websites a)); try done.
  - intros a b c H1 H2. congruence.
  - intros w url d.
    by destruct (get_or_create_effect w url d)
      as (id & d' & -> & _ & _ & _ & Hw & _).
  - intros a d. apply forced_reset_same_frame.
Qed.

(** The forced reset adds no URL row. *)
Lemma forced_reset_urls_within args db :
  urls_kept (forced_reset args db).2 db.
Proof.
  unfold forced_reset. destruct (args_force args); [|by intros ? ?].
  revert db.
  assert (∀ a b c, urls_kept b a → urls_kept c b → urls_kept c a) as Htrans.
  { intros a b c H1 H2 id row H. by apply H1, H2. }
  apply (and_then_preserves (λ a b, urls_kept b a)); [exact Htrans| |].
  { intros db. unfold force_website. destruct (given _); munfold;
      [|by intros ? ?].
    destruct (websites db !! _); simpl; [|by intros ? ?].
    intros id row H. by apply sql_delete_lookup in H as [H _]. }
  apply (and_then_preserves (λ a b, urls_kept b a)); [exact Htrans| |].
  { intros db. unfold force_server. destruct (given _); munfold;
      by intros ? ?. }
  apply (and_then_preserves (λ a b, urls_kept b a)); [exact Htrans| |].
  { intros db. unfold force_file. destruct (given _); munfold;
      [|by intros ? ?].
    destruct (forced_file_key _) as [[[[name y] m]|]|]; simpl;
      try by intros ? ?.
    destruct (websites db !! _); simpl; [|by intros ? ?].
    intros id row H. by apply sql_delete_lookup in H as [H _]. }
  intros db. unfold force_all. destruct (_ && _); munfold; by intros ? ?.
Qed.

Lemma url_unique_NoDup db :
  NoDup ((map_to_list (website_url db)).*2) → url_unique db.
Proof.
  intros Hnd id1 id2 row H1 H2.
  apply elem_of_map_to_list, list_elem_of_lookup in H1 as [i Hi].
  apply elem_of_map_to_list, list_elem_of_lookup in H2 as [j Hj].
  assert (i = j) as <-.
  { apply (NoDup_lookup _ i j row Hnd); rewrite list_lookup_fmap.
    - by rewrite Hi.
    - by rewrite Hj. }
  congruence.
Qed.

(** X5: a run of [main] keeps the [website_url] table free of duplicates:
    if no two rows carry the same (website_id, url) before the run, none
    do after it, whatever the command line, the files and the outcome.
    The table needs no unique key for this; the lookup before every
    insert is enough. *)
Theorem main_keeps_urls_unique
    (pats : list (list N)) (fs : list (list N * list File))
    (clock : list N → list N → Z) (args : Args) (db : DB) :
  url_unique db → url_unique (main pats fs clock args db).2.
Proof.
  apply (main_preserves (λ a b, url_unique a → url_unique b)); try done.
  - intros a b c H1 H2 H. by apply H2, H1.
  - intros w url d. apply get_or_create_unique.
  - intros a d Hu id1 id2 row H1 H2.
    apply (Hu id1 id2 row); by apply forced_reset_urls_within with (args := a).
Qed.

(** X6: without [--force] a run of [main] deletes nothing: every
    [website_url] row is kept as it is, and every key of
    [website_url_stats] and of [file_tracking] that had a row still has
    one, whatever the files and the outcome. *)
Theorem main_without_force_deletes_nothing
    (pats : list (list N)) (fs : list (list N * list File))
    (clock : list N → list N → Z) (args : Args) (db : DB) :
  args_force args = false →
  urls_kept db (main pats fs clock args db).2
  ∧ (∀ k, is_Some (website_url_stats db !! k) →
          is_Some (website_url_stats (main pats fs clock args db).2 !! k))
  ∧ (∀ k, is_Some (file_tracking db !! k) →
          is_Some (file_tracking (main pats fs clock args db).2 !! k)).
Proof.
  intros Hforce.
  set (R := λ a b : DB,
         urls_kept a b
         ∧ (∀ k, is_Some (website_url_stats a !! k) →
                 is_Some (website_url_stats b !! k))
         ∧ (∀ k, is_Some (file_tracking a !! k) →
                 is_Some (file_tracking b !! k))).
  assert (∀ a, R a a) as Hrefl by (by intros a; split; [intros ? ?|split]).
  assert (∀ a b c, R a b → R b c → R a c) as Htrans.
  { intros a b c (H1 & H2 & H3) (H1' & H2' & H3'). split; [|split].
    - intros id row H. by apply H1', H1.
    - intros k H. by apply H2', H2.
    - intros k H. by apply H3', H3. }
  unfold main. destruct (select_directories args) as [dirs|]; [|apply Hrefl].
  unfold bind at 1, and_then, forced_reset. rewrite Hforce.
  unfold bind, ret. pose proof (check_website_state args db) as Hc.
  destruct (check_website args db) as [[[|]|e] db1]; simpl in *; subst db1;
    try apply Hrefl.
  apply (process_directories_preserves R); try done.
  - intros w url d.
    destruct (get_or_create_effect w url d)
      as (id & d' & -> & _ & Hk & _ & _ & Hs & Hf & _). simpl.
    split; [done|]. rewrite Hs, Hf. by split.
  - intros id sid y m data d. unfold R, update_server_stats; munfold.
    split; [by intros ? ?|]. split; [|done].
    intros k Hk. destruct (decide ((id, sid, y, m) = k)) as [<-|Hne].
    + rewrite lookup_insert_eq. by eexists.
    + by rewrite lookup_insert_ne.
  - intros filename sid t now d. unfold R, update_file_tracking; munfold.
    split; [by intros ? ?|]. split; [done|].
    intros k Hk. destruct (decide ((filename, sid) = k)) as [<-|Hne].
    + rewrite lookup_insert_eq. by eexists.
    + by rewrite lookup_insert_ne.
Qed.

(** ** Additive merge *)









(** ** The offset index, continued *)

Lemma parse_begin_map_loop_entries (Q : list N → Z → Prop) lines positions res :
  parse_begin_map_loop lines positions = OK res →
  (∀ k v, positions !! k = Some v → Q k v) →
  (∀ raw line a b n,
     raw ∈ lines → line_text raw = OK line → split line = [a; b] →
     startswith a (u "POS_") = true → int b = OK n → Q a n) →
  ∀ k v, res !! k = Some v → Q k v.
Proof.
  revert positions. induction lines as [|raw rest IH]; intros positions.
  - intros [= <-] Hp _. exact Hp.
  - cbn [parse_begin_map_loop]. intros Hrun Hp Hl.
    assert (∀ raw' line a b n,
              raw' ∈ rest → line_text raw' = OK line → split line = [a; b] →
              startswith a (u "POS_") = true → int b = OK n → Q a n) as Hl'.
    { intros raw' line a b n Hin. apply Hl. by apply elem_of_cons; right. }
    specialize (Hl raw). unfold line_text in Hl.
    destruct (decode_utf8 raw) as [l|]; [|done]. cbn [rbind] in *.
    destruct (startswith (strip l) (u "BEGIN_MAP")); [by eapply IH|].
    destruct (startswith (strip l) (u "END_MAP")).
    { injection Hrun as <-. exact Hp. }
    destruct (split (strip l)) as [|a [|b [|]]] eqn:Hs; cbn [length Nat.eqb andb] in Hrun;
      try by eapply IH.
    cbn [nth] in Hrun.
    destruct (startswith a (u "POS_")) eqn:Ha; [|by eapply IH].
    destruct (int b) as [n|] eqn:Hb; [|done]. cbn [rbind] in Hrun.
    eapply IH; [exact Hrun| |exact Hl'].
    intros k v. destruct (decide (a = k)) as [<-|Hne].
    + rewrite lookup_insert_eq. intros [= <-].
      apply (Hl (strip l) a b n); auto. by apply elem_of_cons; left.
    + rewrite lookup_insert_ne by done. apply Hp.
Qed.

(** X8: every entry of the mapping that [parse_begin_map] returns comes
    from a line of the file: its name starts with [POS_], and some line
    of the file has exactly that name and a second field that [int]
    reads as the entry's offset.  Lines of any other shape add
    nothing. *)
Theorem parse_begin_map_entries
    (file : list N) (positions : gmap (list N) Z) (name : list N) (pos : Z) :
  parse_begin_map file = OK positions →
  positions !! name = Some pos →
  startswith name (u "POS_") = true
  ∧ ∃ raw line field,
      raw ∈ readlines file
      ∧ line_text raw = OK line
      ∧ split line = [name; field]
      ∧ int field = OK pos.
Proof.
  unfold parse_begin_map. intros Hrun.
  apply (parse_begin_map_loop_entries
           (λ k v, startswith k (u "POS_") = true
                   ∧ ∃ raw line field,
                       raw ∈ readlines file ∧ line_text raw = OK line
                       ∧ split line = [k; field] ∧ int field = OK v)
           _ _ _ Hrun).
  - intros k v H. by rewrite lookup_empty in H.
  - intros raw line a b n Hin Hl Hs Ha Hb. split; [done|].
    by exists raw, line, b.
Qed.

Lemma parse_begin_map_entries_witness :
  startswith (u "POS_SIDER") (u "POS_") = true
  ∧ ∃ raw line field,
      raw ∈ readlines (f_content bad_counter_file)
      ∧ line_text raw = OK line
      ∧ split line = [u "POS_SIDER"; field]
      ∧ int field = OK 33.
Proof.
  apply (parse_begin_map_entries (f_content bad_counter_file)
           {[ u "POS_SIDER" := 33 ]} (u "POS_SIDER") 33).
  - by vm_compute.
  - by vm_compute.
Defined.

(** *** Lines *)

Lemma lines_go_app cur a b :
  lines_go cur ((a ++ [10%N]) ++ b) = lines_go cur (a ++ [10%N]) ++ lines_go [] b.
Proof.
  revert cur. induction a as [|c a IH]; intros cur.
  - reflexivity.
  - cbn [app lines_go]. destruct (c =? 10)%N; by rewrite IH.
Qed.

Lemma readlines_app a b :
  readlines ((a ++ [10%N]) ++ b) = readlines (a ++ [10%N]) ++ readlines b.
Proof. apply lines_go_app. Qed.

Lemma parse_begin_map_loop_stops before raw after positions line :
  line_text raw = OK line →
  startswith line (u "END_MAP") = true →
  startswith line (u "BEGIN_MAP") = false →
  parse_begin_map_loop (before ++ raw :: after) positions
  = parse_begin_map_loop (before ++ [raw]) positions.
Proof.
  unfold line_text. intros Hl He Hb. revert positions.
  induction before as [|x before IH]; intros positions.
  - cbn [app parse_begin_map_loop].
    destruct (decode_utf8 raw) as [l|]; [|done]. cbn [rbind] in *.
    injection Hl as <-. by rewrite Hb, He.
  - cbn [app parse_begin_map_loop].
    destruct (decode_utf8 x) as [l|]; [|done]. cbn [rbind].
    destruct (startswith (strip l) (u "BEGIN_MAP")); [apply IH|].
    destruct (startswith (strip l) (u "END_MAP")); [done|].
    destruct (_ && _); [|apply IH].
    destruct (int _); [|done]. cbn [rbind]. apply IH.
Qed.

(** X9: [parse_begin_map] reads nothing behind the END_MAP line: whatever
    follows that line in the file, bytes that are not UTF-8 and lines
    that would not parse included, the result is the same. *)
Theorem parse_begin_map_stops_at_end_map (before after : list N) :
  parse_begin_map (before ++ [10%N] ++ u "END_MAP" ++ [10%N] ++ after)
  = parse_begin_map (before ++ [10%N] ++ u "END_MAP" ++ [10%N]).
Proof.
  unfold parse_begin_map.
  replace (before ++ [10%N] ++ u "END_MAP" ++ [10%N] ++ after)
    with (((before ++ [10%N]) ++ (u "END_MAP" ++ [10%N])) ++ after)
    by (by rewrite <- !app_assoc).
  replace (before ++ [10%N] ++ u "END_MAP" ++ [10%N])
    with ((before ++ [10%N]) ++ (u "END_MAP" ++ [10%N]))
    by (by rewrite <- !app_assoc).
  rewrite (readlines_app before (u "END_MAP" ++ [10%N])).
  rewrite <- (app_assoc (before ++ [10%N])).
  rewrite (readlines_app before ((u "END_MAP" ++ [10%N]) ++ after)).
  rewrite (readlines_app (u "END_MAP") after).
  change (readlines (u "END_MAP" ++ [10%N])) with [u "END_MAP" ++ [10%N]].
  cbn [app].
  by apply parse_begin_map_loop_stops with (line := u "END_MAP").
Qed.

(** ** The record decoder, continued *)

Lemma parse_pos_sider_loop_stops pats before raw after acc line :
  line_text raw = OK line →
  startswith line (u "END_SIDER") = true →
  parse_pos_sider_loop pats (before ++ raw :: after) acc
  = parse_pos_sider_loop pats (before ++ [raw]) acc.
Proof.
  unfold line_text. intros Hl He. revert acc.
  induction before as [|x before IH]; intros acc.
  - cbn [app parse_pos_sider_loop].
    destruct (decode_utf8 raw) as [l|]; [|done]. cbn [rbind] in *.
    injection Hl as <-. by rewrite He.
  - cbn [app parse_pos_sider_loop].
    destruct (decode_utf8 x) as [l|]; [|done]. cbn [rbind].
    destruct (startswith (strip l) (u "END_SIDER")); [done|].
    destruct (negb _ && negb _); [|apply IH].
    destruct (length (split (strip l)) =? 5)%nat; [|apply IH].
    destruct (should_ignore_url pats _); [apply IH|].
    destruct (map_int _) as [ints|]; [|done]. cbn [rbind].
    destruct ints as [|? [|? [|? [|? [|]]]]]; first [done|apply IH].
Qed.

(** X10: [parse_pos_sider] reads nothing behind the END_SIDER line: for
    an offset inside the part of the file before that line, whatever
    follows the line (other sections, bytes that are not UTF-8, lines
    with bad counters) leaves the result the same. *)
Theorem parse_pos_sider_stops_at_end_sider
    (pats : list (list N)) (before after : list N) (pos : Z) :
  pos <= Z.of_nat (length before) →
  parse_pos_sider pats
    (before ++ [10%N] ++ u "END_SIDER" ++ [10%N] ++ after) pos
  = parse_pos_sider pats (before ++ [10%N] ++ u "END_SIDER" ++ [10%N]) pos.
Proof.
  intros Hpos. unfold parse_pos_sider, seek.
  destruct ((pos <? - 2 ^ 63) || (2 ^ 63 <=? pos)); [done|].
  destruct (Z.ltb_spec pos 0); [done|].
  assert (∀ tail : list N,
            (pos <=? Z.of_nat (length (before ++ tail))) = true) as Hin.
  { intros tail. rewrite length_app. apply Z.leb_le. lia. }
  rewrite !Hin. cbn [orb rbind].
  rewrite !drop_app_le by lia.
  set (rest := drop (Z.to_nat pos) before).
  replace (rest ++ [10%N] ++ u "END_SIDER" ++ [10%N] ++ after)
    with ((rest ++ [10%N]) ++ (u "END_SIDER" ++ [10%N]) ++ after)
    by (by rewrite <- !app_assoc).
  replace (rest ++ [10%N] ++ u "END_SIDER" ++ [10%N])
    with ((rest ++ [10%N]) ++ (u "END_SIDER" ++ [10%N]))
    by (by rewrite <- !app_assoc).
  rewrite (readlines_app rest (u "END_SIDER" ++ [10%N])).
  rewrite (readlines_app rest ((u "END_SIDER" ++ [10%N]) ++ after)).
  rewrite (readlines_app (u "END_SIDER") after).
  change (readlines (u "END_SIDER" ++ [10%N])) with [u "END_SIDER" ++ [10%N]].
  cbn [app].
  by apply parse_pos_sider_loop_stops with (line := u "END_SIDER").
Qed.

(** X11: an offset at or past the end of the file is no error for
    [parse_pos_sider] as long as it is not past the largest offset of
    the file system: it returns the empty list of records, for every
    file and every list of ignore patterns.  Past the end of the file
    and past that largest offset (and below 2^63), [seek] raises
    [OSError] and so does [parse_pos_sider]. *)
Theorem parse_pos_sider_past_end
    (pats : list (list N)) (file : list N) (pos : Z) :
  Z.of_nat (length file) <= pos < 2 ^ 63 →
  (pos <= max_offset ∨ pos = Z.of_nat (length file) →
   parse_pos_sider pats file pos = OK [])
  ∧ (max_offset < pos ∧ Z.of_nat (length file) < pos →
     parse_pos_sider pats file pos = Raise OSError).
Proof.
  intros Hpos. split.
  - intros Hin. unfold parse_pos_sider.
    rewrite seek_ok by lia. cbn [rbind].
    by rewrite drop_ge by lia.
  - intros [Hmax Hlen]. unfold parse_pos_sider, seek.
    destruct (Z.ltb_spec pos (- 2 ^ 63)); [lia|].
    destruct (Z.leb_spec (2 ^ 63) pos); [lia|].
    destruct (Z.ltb_spec pos 0); [lia|].
    destruct (Z.leb_spec pos (Z.of_nat (length file))); [lia|].
    by destruct (Z.leb_spec pos max_offset); [lia|].
Qed.

(** *** URLs without escapes *)

Lemma unquote_to_bytes_plain s :
  Forall (λ c, c ≠ 37%N) s → unquote_to_bytes s = s.
Proof.
  induction 1 as [|c s Hc _ IH]; [done|]. cbn [unquote_to_bytes].
  destruct (N.eqb_spec c 37); [done|]. by rewrite IH.
Qed.

Lemma utf8_run_ascii strict s :
  Forall (λ c, (c < 128)%N) s → utf8_run strict None s = OK s.
Proof.
  induction 1 as [|c s Hc _ IH]; [done|]. cbn [utf8_run].
  unfold utf8_lead. destruct (N.ltb_spec c 128); [|lia].
  by rewrite IH.
Qed.

Lemma unquote_go_plain run s :
  Forall (λ c, (c < 128)%N ∧ c ≠ 37%N) run →
  Forall (λ c, (c < 128)%N ∧ c ≠ 37%N) s →
  unquote_go run s = rev run ++ s.
Proof.
  intros Hrun Hs. revert run Hrun.
  induction Hs as [|c s [Hc Hp] _ IH]; intros run Hrun.
  - cbn [unquote_go]. unfold unquote_run, decode_utf8_replace.
    assert (Forall (λ c, (c < 128)%N ∧ c ≠ 37%N) (rev run)) as Hrev.
    { rewrite Forall_forall in *. intros x Hx. apply Hrun.
      by apply list_elem_of_In, in_rev, list_elem_of_In. }
    rewrite unquote_to_bytes_plain, utf8_run_ascii, app_nil_r; [done| |].
    + eapply Forall_impl; [exact Hrev|]. by intros x [? _].
    + eapply Forall_impl; [exact Hrev|]. by intros x [_ ?].
  - cbn [unquote_go]. destruct (N.ltb_spec c 128); [|lia].
    rewrite IH by (by constructor). simpl. by rewrite <- app_assoc.
Qed.

Lemma plain_drop (P : N → Prop) n s : Forall P s → Forall P (drop n s).
Proof. intros H. by apply Forall_drop. Qed.

Lemma strip_prefix_app p s : strip_prefix p (p ++ s) = s.
Proof.
  unfold strip_prefix.
  assert (startswith (p ++ s) p = true) as ->
    by (apply startswith_prefix; by exists s).
  by rewrite drop_app_length.
Qed.

(** X12: a first field made of ASCII characters without a percent sign
    is stored with nothing but the prefixes removed: [unquote] leaves
    such a string as it is, so the stored URL is the field without one
    leading ['/'] and without one ['wiki/'] prefix. *)
Theorem normalize_url_plain (field : list N) :
  Forall (λ c, (c < 128)%N ∧ c ≠ 37%N) field →
  unquote field = field
  ∧ normalize_url field
    = strip_prefix (u "wiki/") (strip_prefix (u "/") field)
  ∧ normalize_url (u "/wiki/" ++ field) = field.
Proof.
  intros H.
  assert (∀ s, Forall (λ c, (c < 128)%N ∧ c ≠ 37%N) s → unquote s = s)
    as Hplain.
  { intros s Hs. unfold unquote. by rewrite unquote_go_plain. }
  assert (∀ p s, Forall (λ c, (c < 128)%N ∧ c ≠ 37%N) s →
                 Forall (λ c, (c < 128)%N ∧ c ≠ 37%N) (strip_prefix p s))
    as Hstrip.
  { intros p s Hs. unfold strip_prefix.
    destruct (startswith s p); [by apply Forall_drop|done]. }
  split; [by apply Hplain|]. split.
  - unfold normalize_url. by apply Hplain, Hstrip, Hstrip.
  - unfold normalize_url.
    change (u "/wiki/" ++ field) with (u "/" ++ u "wiki/" ++ field).
    rewrite !strip_prefix_app. by apply Hplain.
Qed.

Lemma normalize_url_plain_witness :
  unquote (u "index.php") = u "index.php"
  ∧ normalize_url (u "index.php")
    = strip_prefix (u "wiki/") (strip_prefix (u "/") (u "index.php"))
  ∧ normalize_url (u "/wiki/" ++ u "index.php") = u "index.php".
Proof.
  apply (normalize_url_plain (u "index.php")).
  vm_compute. repeat constructor; lia.
Defined.

(** ** File names, continued *)

Lemma filename_website_shape stamp name :
  46%N ∉ stamp →
  filename_website (stamp ++ 46%N :: name ++ 46%N :: u "txt") = name.
Proof.
  intros Hdot. unfold filename_website.
  rewrite split_on_app, (split_on_no_sep _ stamp) by done.
  rewrite split_on_app. simpl.
  rewrite app_comm_cons, drop_last_app by done.
  unfold slice_from. simpl. apply join_split_on.
Qed.

Lemma endswith_app s p : endswith (s ++ p) p = true.
Proof.
  unfold endswith. rewrite rev_app_distr.
  apply startswith_prefix. by exists (rev s).
Qed.

(** X13: the [--website] filter of the directory loop names the same
    website as [process_file].  For a file name made of a stamp of 13
    characters without a dot (such as [awstats] and six digits), a dot,
    any website name and [.txt], the name cut at fixed offsets on line
    326 and the name joined from the dot-separated parts on line 172 are
    both that website name; so with [--website w] a listed file with
    [awstats] in its name is processed exactly when its website name is
    [w]. *)
Theorem website_filter_agrees
    (stamp name : list N) (args : Args) (file : File) :
  length stamp = 13%nat →
  46%N ∉ stamp →
  f_name file = stamp ++ u "." ++ name ++ u ".txt" →
  website_part (f_name file) = name
  ∧ filename_website (f_name file) = name
  ∧ (given (args_website args) = true →
     contains (f_name file) (u "awstats") = true →
     (listed args file = true ↔ name = arg (args_website args))).
Proof.
  intros Hlen Hdot Hf. rewrite Hf.
  assert (website_part (stamp ++ u "." ++ name ++ u ".txt") = name) as Hw.
  { unfold website_part.
    replace (stamp ++ u "." ++ name ++ u ".txt")
      with ((stamp ++ u "." ++ name) ++ u ".txt") by (by rewrite <- !app_assoc).
    rewrite drop_last_app by done. unfold slice_from.
    replace (13 + 1)%nat with (length (stamp ++ u ".")); [|by rewrite length_app, Hlen].
    by rewrite (app_assoc stamp), drop_app_length. }
  split; [done|]. split; [by apply filename_website_shape|].
  intros Hg Hc. unfold listed. rewrite Hf.
  fold (website_part (stamp ++ u "." ++ name ++ u ".txt")).
  rewrite Hw, Hg, Hc.
  replace (stamp ++ u "." ++ name ++ u ".txt")
    with ((stamp ++ u "." ++ name) ++ u ".txt") by (by rewrite <- !app_assoc).
  rewrite endswith_app. cbn [andb]. rewrite negb_involutive.
  apply bool_decide_eq_true.
Qed.

Lemma website_filter_agrees_witness :
  website_part (f_name sample_file) = u "example.com"
  ∧ filename_website (f_name sample_file) = u "example.com"
  ∧ (given (args_website only_example) = true →
     contains (f_name sample_file) (u "awstats") = true →
     (listed only_example sample_file = true
      ↔ u "example.com" = arg (args_website only_example))).
Proof.
  apply (website_filter_agrees (u "awstats032024") (u "example.com")
           only_example sample_file).
  - reflexivity.
  - apply (bool_decide_unpack _). by vm_compute.
  - reflexivity.
Defined.

Lemma slice_take {A} a b n (l : list A) :
  (a <= b)%nat → (b <= n)%nat → slice a b (take n l) = slice a b l.
Proof.
  intros Hab Hbn. unfold slice.
  rewrite !take_drop_commute, take_take.
  by replace ((a + (b - a)) `min` n)%nat with (a + (b - a))%nat by lia.
Qed.

Lemma match_awstats_Some s ms ys :
  match_awstats s = Some (ms, ys) →
  ms = slice 7 9 s ∧ ys = slice 9 13 s ∧ (13 <= length s)%nat.
Proof.
  unfold match_awstats.
  destruct (startswith s (u "awstats")); [|done]. cbn [andb].
  destruct (Nat.eqb_spec (length (slice 7 13 s)) 6) as [Hlen|]; [|done].
  cbn [andb]. destruct (forallb isdigit (slice 7 13 s)); [|done].
  intros [= <- <-]. do 2 (split; [done|]).
  unfold slice in Hlen. rewrite length_take, length_drop in Hlen. lia.
Qed.

(** X14: whenever the forced reset of a file accepts a file name, its
    year and month are the ones [process_file] reads from the same name,
    whatever the rest of the name looks like; and when the name ends
    with a dot and an extension of three characters, the website name is
    the same as well.  With any other ending the two website names can
    differ: the forced reset cuts four characters, [process_file] the
    last dot-separated part. *)
Theorem forced_file_key_agrees
    (filename website_name : list N) (year month : Z) :
  forced_file_key filename = OK (Some (website_name, year, month)) →
  filename_year filename = OK year
  ∧ filename_month filename = OK month
  ∧ (∀ body ext,
       filename = body ++ 46%N :: ext → length ext = 3%nat → 46%N ∉ ext →
       filename_website filename = website_name).
Proof.
  unfold forced_file_key.
  destruct (length (split_on 46 (drop_last 4 filename)) <? 2)%nat; [done|].
  destruct (match_awstats (drop_last 4 filename)) as [[ms ys]|] eqn:Hm;
    [|done].
  apply match_awstats_Some in Hm as (-> & -> & Hlen).
  assert (slice 7 9 (drop_last 4 filename) = slice 7 9 filename
          ∧ slice 9 13 (drop_last 4 filename) = slice 9 13 filename)
    as [-> ->].
  { unfold drop_last in *. rewrite length_take in Hlen.
    by rewrite !slice_take by lia. }
  fold (filename_month filename). fold (filename_year filename).
  destruct (filename_month filename) as [m|]; [|done]. cbn [rbind].
  destruct (filename_year filename) as [y|]; [|done]. cbn [rbind].
  intros [= <- <- <-]. do 2 (split; [done|]).
  intros body ext -> Hext Hdot. unfold filename_website.
  rewrite (drop_last_app body (46%N :: ext)) by (simpl; lia).
  rewrite split_on_app, (split_on_no_sep _ ext) by done.
  by rewrite drop_last_app.
Qed.

Lemma forced_file_key_agrees_witness :
  filename_year (u "awstats032024.example.com.txt") = OK 2024
  ∧ filename_month (u "awstats032024.example.com.txt") = OK 3
  ∧ (∀ body ext,
       u "awstats032024.example.com.txt" = body ++ 46%N :: ext →
       length ext = 3%nat → 46%N ∉ ext →
       filename_website (u "awstats032024.example.com.txt")
       = u "example.com").
Proof.
  apply (forced_file_key_agrees (u "awstats032024.example.com.txt")
           (u "example.com") 2024 3).
  reflexivity.
Defined.

(** With another ending the website names differ. *)
Lemma forced_file_key_other_extension :
  forced_file_key (u "awstats032024.example.com.gz")
  = OK (Some (u "example.co", 2024, 3))
  ∧ filename_website (u "awstats032024.example.com.gz") = u "example.com".
Proof. split; reflexivity. Qed.

(** ** Early returns of [main] *)

(** X15: a run that names no known directory with [--server], or a
    website that is not in [websites] with [--website], returns at once:
    nothing is deleted, even with [--force], and no file is read. *)
Theorem main_returns_early
    (pats : list (list N)) (fs : list (list N * list File))
    (clock : list N → list N → Z) (args : Args) (db : DB) :
  (given (args_server args) = true
   ∧ ∀ dir, dir ∈ directories →
            contains dir (arg (args_server args)) = false)
  ∨ (given (args_website args) = true
     ∧ websites db !! arg (args_website args) = None) →
  main pats fs clock args db = (OK tt, db).
Proof.
  intros [[Hg Hnone]|[Hg Hw]]; unfold main.
  - unfold select_directories. rewrite Hg.
    assert (List.filter (λ dir, contains dir (arg (args_server args)))
              directories = []) as ->; [|done].
    unfold directories in *. cbn [List.filter].
    rewrite !Hnone; [done|..]; rewrite !elem_of_cons; auto 10.
  - destruct (select_directories args); [|done].
    unfold bind, and_then, check_website, get, ret. rewrite Hg.
    unfold bind. by rewrite Hw.
Qed.

(** X16: every directory that [main] goes through has a server id, with
    or without [--server]; with [--server] each of them contains the
    given text.  The branch that reports a missing server id is never
    taken. *)
Theorem selected_directories_have_ids (args : Args) (dirs : list (list N))
    (dir : list N) :
  select_directories args = Some dirs →
  dir ∈ dirs →
  is_Some (get_server_id dir)
  ∧ dir ∈ directories
  ∧ (given (args_server args) = true →
     contains dir (arg (args_server args)) = true).
Proof.
  intros Hsel Hin.
  assert (dir ∈ directories
          ∧ (given (args_server args) = true →
             contains dir (arg (args_server args)) = true)) as [Hd Hc].
  { unfold select_directories in Hsel.
    destruct (given (args_server args)).
    - destruct (List.filter _ directories) as [|d ds] eqn:Hf; [done|].
      injection Hsel as <-. rewrite <- Hf in Hin.
      apply list_elem_of_In, filter_In in Hin as [Hin Hc].
      split; [by apply list_elem_of_In|done].
    - injection Hsel as <-. by split. }
  split; [|by split].
  unfold directories in Hd. rewrite !elem_of_cons, elem_of_nil in Hd.
  destruct Hd as [->|[->|[->|[->|[]]]]]; eexists; by vm_compute.
Qed.

Lemma selected_directories_have_ids_witness :
  is_Some (get_server_id (u "/home/private/server_stats/frankfurt"))
  ∧ u "/home/private/server_stats/frankfurt" ∈ directories
  ∧ (given (args_server force_frankfurt) = true →
     contains (u "/home/private/server_stats/frankfurt")
       (arg (args_server force_frankfurt)) = true).
Proof.
  apply (selected_directories_have_ids force_frankfurt
           [u "/home/private/server_stats/frankfurt"]).
  - by vm_compute.
  - apply elem_of_cons. by left.
Defined.

(** ** Forced reset, scope by scope *)

Lemma referenced_iff st id :
  referenced st id = true ↔ ∃ k row, st !! k = Some row ∧ key_url_id k = id.
Proof.
  split; [apply referenced_true|].
  intros (k & row & Hk & <-). unfold referenced. apply bool_decide_eq_true.
  apply list_elem_of_fmap. exists k. split; [done|].
  apply list_elem_of_fmap. exists (k, row). split; [done|].
  by apply elem_of_map_to_list.
Qed.

Lemma stats_of_website_true urls w k s :
  stats_of_website urls w (k, s) = true
  ↔ ∃ url, urls !! key_url_id k = Some (w, url).
Proof.
  unfold stats_of_website. simpl.
  destruct (urls !! key_url_id k) as [[w' url]|]; simpl.
  - rewrite Z.eqb_eq. split; [intros ->; by exists url|by intros [? [= ->]]].
  - split; [done|by intros [? ?]].
Qed.

(** X17: the forced reset of a website removes exactly the data under
    that website.  A [website_url] row is left if and only if it was
    there and belongs to another website; a [website_url_stats] row is
    left if and only if it was there and its URL is not a row of the
    website; [websites] and [file_tracking] are not touched. *)
Theorem force_website_exact (args : Args) (db : DB) (website_id : Z) :
  given (args_website args) = true →
  websites db !! arg (args_website args) = Some website_id →
  let r := force_website args db in
  r.1 = OK Continue
  ∧ (∀ id row,
       website_url r.2 !! id = Some row
       ↔ website_url db !! id = Some row ∧ row.1 ≠ website_id)
  ∧ (∀ k s,
       website_url_stats r.2 !! k = Some s
       ↔ website_url_stats db !! k = Some s
         ∧ ¬ ∃ url, website_url db !! key_url_id k = Some (website_id, url))
  ∧ websites r.2 = websites db
  ∧ file_tracking r.2 = file_tracking db.
Proof.
  intros Hg Hw r. subst r. unfold force_website. rewrite Hg. munfold.
  rewrite Hw. simpl. split; [done|].
  assert (∀ k s,
            sql_delete (stats_of_website (website_url db) website_id)
              (website_url_stats db) !! k = Some s
            ↔ website_url_stats db !! k = Some s
              ∧ ¬ ∃ url, website_url db !! key_url_id k
                         = Some (website_id, url)) as Hst.
  { intros k s. rewrite sql_delete_lookup, <- stats_of_website_true.
    by rewrite not_true_iff_false. }
  split; [|by split].
  intros id [w url]. rewrite sql_delete_lookup. simpl.
  split; intros [Hrow Hc]; (split; [done|]).
  - intros ->. rewrite Z.eqb_refl in Hc. simpl in Hc.
    unfold unused_url in Hc. apply negb_false_iff in Hc. simpl in Hc.
    apply referenced_true in Hc as (k & s & Hk & Hid).
    apply Hst in Hk as [_ Hk]. apply Hk. exists url. by rewrite Hid.
  - apply andb_false_iff. left. by apply Z.eqb_neq.
Qed.

Lemma force_website_exact_witness :
  let r := force_website force_example two_sites_db in
  r.1 = OK Continue
  ∧ (∀ id row,
       website_url r.2 !! id = Some row
       ↔ website_url two_sites_db !! id = Some row ∧ row.1 ≠ 7)
  ∧ (∀ k s,
       website_url_stats r.2 !! k = Some s
       ↔ website_url_stats two_sites_db !! k = Some s
         ∧ ¬ ∃ url, website_url two_sites_db !! key_url_id k = Some (7, url))
  ∧ websites r.2 = websites two_sites_db
  ∧ file_tracking r.2 = file_tracking two_sites_db.
Proof.
  apply (force_website_exact force_example two_sites_db 7); by vm_compute.
Defined.

(** X18: the forced reset of a file removes the stats rows of the
    file's website, year and month for every server, and no other; a
    URL row of that website is left if and only if a remaining stats row
    refers to it, so URLs that had no stats before are swept as well;
    the URL rows of other websites, [websites] and [file_tracking] are
    not touched. *)
Theorem force_file_exact
    (args : Args) (db : DB) (website_name : list N)
    (year month website_id : Z) :
  given (args_file args) = true →
  forced_file_key (arg (args_file args))
  = OK (Some (website_name, year, month)) →
  websites db !! website_name = Some website_id →
  let r := force_file args db in
  r.1 = OK Continue
  ∧ (∀ k s,
       website_url_stats r.2 !! k = Some s
       ↔ website_url_stats db !! k = Some s
         ∧ ¬ ((∃ url, website_url db !! key_url_id k = Some (website_id, url))
              ∧ key_year k = year ∧ key_month k = month))
  ∧ (∀ id row,
       website_url r.2 !! id = Some row
       ↔ website_url db !! id = Some row
         ∧ (row.1 ≠ website_id
            ∨ ∃ k s, website_url_stats r.2 !! k = Some s ∧ key_url_id k = id))
  ∧ websites r.2 = websites db
  ∧ file_tracking r.2 = file_tracking db.
Proof.
  intros Hg Hk Hw r. subst r. unfold force_file. rewrite Hg. munfold.
  rewrite Hk. simpl. rewrite Hw. simpl. split; [done|].
  split; [|split; [|done]].
  - intros k s. rewrite sql_delete_lookup. simpl.
    rewrite <- (stats_of_website_true (website_url db) website_id k s).
    rewrite <- (Z.eqb_eq (key_year k)), <- (Z.eqb_eq (key_month k)).
    rewrite <- !andb_true_iff, not_true_iff_false.
    by rewrite andb_assoc.
  - intros id [w url]. rewrite sql_delete_lookup. simpl.
    unfold unused_url. simpl. rewrite andb_false_iff, negb_false_iff.
    rewrite referenced_iff, Z.eqb_neq. done.
Qed.

Lemma force_file_exact_witness :
  let r := force_file force_march two_sites_db in
  r.1 = OK Continue
  ∧ (∀ k s,
       website_url_stats r.2 !! k = Some s
       ↔ website_url_stats two_sites_db !! k = Some s
         ∧ ¬ ((∃ url, website_url two_sites_db !! key_url_id k
                      = Some (7, url))
              ∧ key_year k = 2024 ∧ key_month k = 3))
  ∧ (∀ id row,
       website_url r.2 !! id = Some row
       ↔ website_url two_sites_db !! id = Some row
         ∧ (row.1 ≠ 7
            ∨ ∃ k s, website_url_stats r.2 !! k = Some s ∧ key_url_id k = id))
  ∧ websites r.2 = websites two_sites_db
  ∧ file_tracking r.2 = file_tracking two_sites_db.
Proof.
  apply (force_file_exact force_march two_sites_db (u "example.com")
           2024 3 7); by vm_compute.
Defined.

(** ** Recomputation *)

Lemma same_data_refl db : same_data db db.
Proof. by split. Qed.

Lemma get_or_create_same_data w url a b :
  same_data a b →
  (get_or_create_website_url_id w url a).1
  = (get_or_create_website_url_id w url b).1
  ∧ same_data (get_or_create_website_url_id w url a).2
      (get_or_create_website_url_id w url b).2.
Proof.
  destruct a as [wa ua sa fa], b as [wb ub sb fb].
  intros (Hw & Hu & Hs). simpl in *. subst.
  unfold get_or_create_website_url_id; munfold.
  by destruct (select_url_id ua w url).
Qed.

Lemma update_server_stats_same_data id sid y m data a b :
  same_data a b →
  (update_server_stats id sid y m data a).1
  = (update_server_stats id sid y m data b).1
  ∧ same_data (update_server_stats id sid y m data a).2
      (update_server_stats id sid y m data b).2.
Proof.
  destruct a as [wa ua sa fa], b as [wb ub sb fb].
  intros (Hw & Hu & Hs). simpl in *. subst.
  unfold update_server_stats; munfold. done.
Qed.

Lemma merge_sider_data_same_data w sid y m l a b :
  same_data a b →
  (merge_sider_data w sid y m l a).1 = (merge_sider_data w sid y m l b).1
  ∧ same_data (merge_sider_data w sid y m l a).2
      (merge_sider_data w sid y m l b).2.
Proof.
  revert a b. induction l as [|d l IH]; intros a b Hab; [done|].
  cbn [merge_sider_data]. unfold bind.
  destruct (get_or_create_same_data w (data_url d) a b Hab) as [H1 H2].
  destruct (get_or_create_website_url_id w (data_url d) a) as [[id|e] a1],
           (get_or_create_website_url_id w (data_url d) b) as [[id'|e'] b1];
    cbn [fst snd] in *; try done;
    try (split; [congruence|assumption]).
  injection H1 as <-.
  destruct (update_server_stats_same_data id sid y m d a1 b1 H2) as [H3 H4].
  destruct (update_server_stats id sid y m d a1) as [[[]|e] a2],
           (update_server_stats id sid y m d b1) as [[[]|e'] b2];
    cbn [fst snd] in *; try done;
    try (split; [congruence|assumption]).
  by apply IH.
Qed.

Lemma ingest_same_data pats file sid now a b :
  same_data a b →
  (ingest pats file sid now a).1 = (ingest pats file sid now b).1
  ∧ same_data (ingest pats file sid now a).2 (ingest pats file sid now b).2.
Proof.
  intros Hab. pose proof Hab as (Hw & _ & _).
  unfold ingest, get_website_id, update_file_tracking; munfold.
  destruct (parse_begin_map (f_content file)) as [positions|]; simpl;
    [|done].
  destruct (positions !! u "POS_SIDER") as [pos|]; simpl; [|done].
  destruct (parse_pos_sider pats (f_content file) pos) as [sider|]; simpl;
    [|done].
  rewrite Hw.
  destruct (websites a !! _) as [w|]; simpl; [|done].
  destruct (filename_year _) as [y|]; simpl; [|done].
  destruct (filename_month _) as [m|]; simpl; [|done].
  destruct (merge_sider_data_same_data w sid y m sider a b Hab)
    as [H1 (H2 & H3 & H4)].
  destruct (merge_sider_data w sid y m sider a) as [[[]|e] a1],
           (merge_sider_data w sid y m sider b) as [[[]|e'] b1];
    cbn [fst snd] in *; try done.
  split; [congruence|]. by split.
Qed.

Lemma bind_same_data {A B} (c : M A) (k : A → M B) a b :
  (c a).1 = (c b).1 →
  same_data (c a).2 (c b).2 →
  (∀ x a' b', same_data a' b' →
              (k x a').1 = (k x b').1 ∧ same_data (k x a').2 (k x b').2) →
  (bind c k a).1 = (bind c k b).1
  ∧ same_data (bind c k a).2 (bind c k b).2.
Proof.
  intros H1 H2 Hk. unfold bind.
  destruct (c a) as [[x|e] a1], (c b) as [[x'|e'] b1];
    cbn [fst snd] in *; try done.
  - injection H1 as <-. by apply Hk.
  - split; [congruence|done].
Qed.

Lemma process_file_same_data pats file sid now a b :
  same_data a b →
  (process_file pats file sid true now a).1
  = (process_file pats file sid true now b).1
  ∧ same_data (process_file pats file sid true now a).2
      (process_file pats file sid true now b).2.
Proof.
  intros Hab. rewrite !process_file_unfold. cbn [negb andb].
  by apply ingest_same_data.
Qed.

Lemma process_listing_same_data pats clock args directory sid entries a b :
  args_force args = true →
  same_data a b →
  (process_listing pats clock args directory sid entries a).1
  = (process_listing pats clock args directory sid entries b).1
  ∧ same_data (process_listing pats clock args directory sid entries a).2
      (process_listing pats clock args directory sid entries b).2.
Proof.
  intros Hf. revert a b.
  induction entries as [|file rest IH]; intros a b Hab; [done|].
  cbn [process_listing]. cbv zeta.
  destruct (endswith _ _ && contains _ _); [|by apply IH].
  destruct (given _ && negb _); [by apply IH|].
  rewrite Hf.
  destruct (process_file_same_data pats file sid
              (clock directory (f_name file)) a b Hab) as [H1 H2].
  apply bind_same_data; [done|done|]. intros _ a' b'. apply IH.
Qed.

Lemma process_directories_same_data pats fs clock args dirs a b :
  args_force args = true →
  same_data a b →
  (process_directories pats fs clock args dirs a).1
  = (process_directories pats fs clock args dirs b).1
  ∧ same_data (process_directories pats fs clock args dirs a).2
      (process_directories pats fs clock args dirs b).2.
Proof.
  intros Hf. revert a b.
  induction dirs as [|directory rest IH]; intros a b Hab; [done|].
  cbn [process_directories].
  destruct (get_server_id directory) as [sid|]; [|by apply IH].
  assert (∀ c : M unit,
            ((c a).1 = (c b).1 ∧ same_data (c a).2 (c b).2) →
            (bind c (λ _, process_directories pats fs clock args rest) a).1
            = (bind c (λ _, process_directories pats fs clock args rest) b).1
            ∧ same_data
                (bind c (λ _, process_directories pats fs clock args rest) a).2
                (bind c (λ _, process_directories pats fs clock args rest) b).2)
    as Hstep.
  { intros c [H1 H2]. apply bind_same_data; [done|done|].
    intros _ a' b'. apply IH. }
  apply Hstep. rewrite Hf.
  destruct (given (args_file args)).
  - destruct (lookup_file fs directory _) as [file|]; [|done].
    destruct (process_file_same_data pats file sid
                (clock directory (f_name file)) a b Hab) as [H1 H2].
    apply bind_same_data; [done|done|]. by intros _ a' b'.
  - apply bind_same_data; [done|done|].
    intros entries a' b'. by apply process_listing_same_data.
Qed.

Lemma global_reset_run args db :
  args_force args = true →
  given (args_website args) = false →
  given (args_server args) = false →
  given (args_file args) = false →
  select_directories args = Some directories
  ∧ and_then (check_website args) (forced_reset args) db
    = (OK Continue, mkDB (websites db) ∅ ∅ (file_tracking db)).
Proof.
  intros Hf Hw Hs Hfi. split.
  - unfold select_directories. by rewrite Hs.
  - unfold check_website, forced_reset, force_website, force_server,
      force_file, force_all.
    by rewrite Hf, Hw, Hs, Hfi.
Qed.

(** X19: with [--force] and no other option a run recomputes the
    aggregates from the files alone.  What the run answers, which
    (website, URL) pairs have a row and the counters of each pair for
    every server and month depend on the files and on [websites] only,
    not on the URL rows, stats rows and fingerprints that were there; so
    a second such run over the same files leaves the same aggregates as
    the first.  The identifiers that the URL rows get are not
    compared. *)
Theorem forced_run_recomputes
    (pats : list (list N)) (fs : list (list N * list File))
    (clock : list N → list N → Z) (args : Args) (db1 db2 : DB) :
  args_force args = true →
  given (args_website args) = false →
  given (args_server args) = false →
  given (args_file args) = false →
  websites db1 = websites db2 →
  (main pats fs clock args db1).1 = (main pats fs clock args db2).1
  ∧ same_aggregates (main pats fs clock args db1).2
      (main pats fs clock args db2).2
  ∧ same_aggregates
      (main pats fs clock args (main pats fs clock args db1).2).2
      (main pats fs clock args db1).2.
Proof.
  intros Hf Hw Hs Hfi Hweb.
  assert (∀ a b, same_data a b → same_aggregates b a) as Hagg.
  { intros a b (_ & Hu & Hst) w url. unfold bucket. by rewrite Hu, Hst. }
  assert (∀ a b, websites a = websites b →
            (main pats fs clock args a).1 = (main pats fs clock args b).1
            ∧ same_data (main pats fs clock args b).2
                (main pats fs clock args a).2) as Hmain.
  { intros a b Hab. unfold main.
    destruct (global_reset_run args a Hf Hw Hs Hfi) as [-> Ha].
    destruct (global_reset_run args b Hf Hw Hs Hfi) as [_ Hb].
    unfold bind. rewrite Ha, Hb. cbv beta iota.
    destruct (process_directories_same_data pats fs clock args directories
                (mkDB (websites b) ∅ ∅ (file_tracking b))
                (mkDB (websites a) ∅ ∅ (file_tracking a)) Hf) as [H1 H2];
      [by split|].
    split; [by symmetry|exact H2]. }
  destruct (Hmain db1 db2 Hweb) as (H1 & H2).
  split; [done|]. split; [by apply Hagg|].
  assert (websites (main pats fs clock args db1).2 = websites db1) as Hkeep.
  { apply (main_preserves (λ a b, websites b = websites a)); try done.
    - intros a b c Hab Hbc. congruence.
    - intros w url d.
      by destruct (get_or_create_effect w url d)
        as (id & d' & -> & _ & _ & _ & Hw' & _).
    - intros a d. apply forced_reset_same_frame. }
  destruct (Hmain (main pats fs clock args db1).2 db1 Hkeep) as (_ & H3).
  by apply Hagg.
Qed.

(** ** The ignore list *)

(** X20: no pattern loaded from [ignore_urls.txt] is empty: blank lines
    are dropped and the others are stripped, and a missing file gives no
    pattern.  This matters because one empty pattern would make
    [should_ignore_url] ignore every URL; with loaded patterns a URL
    other than the empty one and ["/"] is ignored only when it starts
    with a non-empty loaded pattern. *)
Theorem load_ignore_patterns_not_blank (lines : option (list (list N))) :
  ([] ∉ load_ignore_patterns lines)
  ∧ load_ignore_patterns None = []
  ∧ (∀ p, p ∈ load_ignore_patterns lines
          ↔ p ≠ [] ∧ ∃ f line, lines = Some f ∧ line ∈ f ∧ p = strip line)
  ∧ (∀ pats url, [] ∈ pats → should_ignore_url pats url = true)
  ∧ (∀ url,
       should_ignore_url (load_ignore_patterns lines) url = true →
       url = [] ∨ url = u "/"
       ∨ ∃ p t, p ≠ [] ∧ p ∈ load_ignore_patterns lines ∧ url = p ++ t).
Proof.
  assert (∀ p, p ∈ load_ignore_patterns lines
               ↔ p ≠ [] ∧ ∃ f line, lines = Some f ∧ line ∈ f ∧ p = strip line)
    as Hmem.
  { intros p. destruct lines as [f|]; simpl.
    - rewrite list_elem_of_In, in_map_iff. split.
      + intros (line & <- & Hin). apply filter_In in Hin as [Hin Hne].
        apply negb_true_iff, bool_decide_eq_false in Hne.
        split; [done|]. exists f, line. by rewrite list_elem_of_In.
      + intros (Hne & f' & line & [= <-] & Hin & ->).
        exists line. split; [done|]. apply filter_In.
        split; [by apply list_elem_of_In|].
        by apply negb_true_iff, bool_decide_eq_false.
    - split; [by intros ?%elem_of_nil|]. by intros (_ & f & line & ? & _). }
  split; [intros H; by apply Hmem in H as [? _]|].
  split; [done|]. split; [exact Hmem|]. split.
  - intros pats url Hin. apply should_ignore_url_true.
    right; right. by exists [], url.
  - intros url H. apply should_ignore_url_true in H
      as [->|[->|(p & t & Hin & ->)]]; [by left|by right; left|].
    right; right. exists p, t. split; [|done].
    by apply Hmem in Hin as [? _].
Qed.

End Platform.

(** * The sample platform *)

(** The statements above hold for every largest offset and every
    conversion of modification times.  Below they are applied to the
    sample reports on a file system whose largest offset is
    [sample_max_offset], with [sample_fromtimestamp] as the
    conversion. *)

(** The claim of C2 as worded fails on a section with an accepted line
    whose entry count is not an integer: the line is before the
    END_SIDER marker, is no comment, has five fields and a URL that is
    not ignored, and [parse_pos_sider] returns no record for it but
    raises [ValueError]. *)
Lemma parse_pos_sider_raises_on_counter :
  sider_region (readlines (drop 33 (f_content bad_counter_file)))
  = OK [u "BEGIN_SIDER 1"; u "/index.php 7 512 x 1"]
  ∧ List.filter (accepted []) [u "BEGIN_SIDER 1"; u "/index.php 7 512 x 1"]
    = [u "/index.php 7 512 x 1"]
  ∧ parse_pos_sider sample_max_offset [] (f_content bad_counter_file) 33
    = Raise ValueError
  ∧ ¬ ∃ recs, parse_pos_sider sample_max_offset []
                (f_content bad_counter_file) 33 = OK recs.
Proof.
  split; [by vm_compute|]. split; [by vm_compute|].
  assert (parse_pos_sider sample_max_offset [] (f_content bad_counter_file) 33
          = Raise ValueError) as -> by (by vm_compute).
  split; [done|]. by intros [recs ?].
Qed.

Lemma parse_pos_sider_spec_witness :
  (∃ recs, parse_pos_sider sample_max_offset sample_ignore sample_report 113
           = OK recs
           ∧ Forall2 decodes_to
               (List.filter (accepted sample_ignore)
                  [u "BEGIN_SIDER 5"; u "/wiki/Some%20Page 10 2048 3 4";
                   u "/ignored/a 1 1 1 1"; u "/index.php 7 512 2 1";
                   u "/ignored/b 2 2 2 2"; u "/ignored/c 3 3 3 3"])
               recs)
  ∧ parse_pos_sider sample_max_offset sample_ignore
      (text ["BEGIN_SIDER 2"; "/ignored/a 1 x 1 1"; "/index.php 7 512 2 1.5";
             "END_SIDER"]%string) 0
    = Raise ValueError.
Proof.
  split.
  - apply (parse_pos_sider_spec sample_max_offset sample_ignore
             sample_report 113).
    + lia.
    + right. by vm_compute.
    + vm_compute. reflexivity.
    + vm_compute. reflexivity.
  - apply (parse_pos_sider_spec sample_max_offset sample_ignore
             (text ["BEGIN_SIDER 2"; "/ignored/a 1 x 1 1";
                    "/index.php 7 512 2 1.5"; "END_SIDER"]%string) 0
             [u "BEGIN_SIDER 2"; u "/ignored/a 1 x 1 1";
              u "/index.php 7 512 2 1.5"]).
    + lia.
    + left. by vm_compute.
    + vm_compute. reflexivity.
    + vm_compute. reflexivity.
Defined.

Lemma structural_error_spec_witness :
  (process_file sample_max_offset sample_fromtimestamp sample_ignore
     no_sider_file 1 false
     (sample_clock (u "/var/lib/awstats") (f_name no_sider_file)) sample_db
   = (OK SectionNotFound, sample_db)
   ∧ process_listing sample_max_offset sample_fromtimestamp sample_ignore
       sample_clock no_args (u "/var/lib/awstats") 1
       [no_sider_file; sample_file] sample_db
     = process_listing sample_max_offset sample_fromtimestamp sample_ignore
         sample_clock no_args (u "/var/lib/awstats") 1 [sample_file]
         sample_db)
  ∧ (process_file sample_max_offset sample_fromtimestamp sample_ignore
       bad_counter_file 1 false
       (sample_clock (u "/var/lib/awstats") (f_name bad_counter_file))
       sample_db
     = (Raise ValueError, sample_db)
     ∧ process_listing sample_max_offset sample_fromtimestamp sample_ignore
         sample_clock no_args (u "/var/lib/awstats") 1
         [bad_counter_file; sample_file] sample_db
       = (Raise ValueError, sample_db)).
Proof.
  split.
  - apply (structural_error_spec sample_max_offset sample_fromtimestamp
             sample_ignore sample_clock no_args
             (u "/var/lib/awstats") 1 no_sider_file [sample_file] sample_db
             {[ u "POS_GENERAL" := 40 ]});
      by vm_compute.
  - apply (structural_error_spec sample_max_offset sample_fromtimestamp
             sample_ignore sample_clock no_args
             (u "/var/lib/awstats") 1 bad_counter_file [sample_file]
             sample_db {[ u "POS_SIDER" := 33 ]}
             ltac:(by vm_compute) ltac:(by vm_compute) ltac:(by vm_compute))
      with (pos := 33)
           (region := [u "BEGIN_SIDER 1"; u "/index.php 7 512 x 1"]);
      [by vm_compute | lia | by vm_compute | by vm_compute].
Defined.

(** The claim of C4 as worded fails on a directory that lists a report
    with a bad counter before a well-formed one: the run ends with
    [ValueError], and the well-formed report, which [process_file]
    ingests when called on it, gets no fingerprint and no stats. *)
Lemma bad_counter_aborts_run :
  main sample_max_offset sample_fromtimestamp sample_ignore sample_fs
    sample_clock no_args sample_db
  = (Raise ValueError, sample_db)
  ∧ file_tracking
      (main sample_max_offset sample_fromtimestamp sample_ignore sample_fs
         sample_clock no_args sample_db).2
    !! (f_name sample_file, 1) = None
  ∧ website_url_stats
      (main sample_max_offset sample_fromtimestamp sample_ignore sample_fs
         sample_clock no_args sample_db).2 = ∅
  ∧ (process_file sample_max_offset sample_fromtimestamp sample_ignore
       sample_file 1 false
       (sample_clock (u "/var/lib/awstats") (f_name sample_file))
       sample_db).1
    = OK Processed.
Proof.
  assert (main sample_max_offset sample_fromtimestamp sample_ignore sample_fs
            sample_clock no_args sample_db
          = (Raise ValueError, sample_db)) as -> by (by vm_compute).
  split; [done|]. split; [done|]. split; [done|]. by vm_compute.
Qed.

(** A run that completes on a store with URL rows of two websites: the
    row of [Some Page] is found again and [index.php] gets the new
    row 5. *)
Lemma main_keeps_urls_unique_witness :
  url_unique
    (main sample_max_offset sample_fromtimestamp sample_ignore good_fs
       sample_clock no_args two_sites_db).2
  ∧ (main sample_max_offset sample_fromtimestamp sample_ignore good_fs
       sample_clock no_args two_sites_db).1 = OK tt
  ∧ map_to_list
      (website_url
         (main sample_max_offset sample_fromtimestamp sample_ignore good_fs
            sample_clock no_args two_sites_db).2)
    ≡ₚ [(1, (7, u "Some Page")); (2, (7, u "Old Page"));
        (3, (8, u "Some Page")); (4, (7, u "Kept"));
        (5, (7, u "index.php"))].
Proof.
  split; [|split].
  - apply (main_keeps_urls_unique sample_max_offset sample_fromtimestamp
             sample_ignore good_fs sample_clock no_args two_sites_db).
    apply url_unique_NoDup. apply (bool_decide_unpack _). by vm_compute.
  - by vm_compute.
  - apply (bool_decide_unpack _). by vm_compute.
Defined.

Lemma main_without_force_deletes_nothing_witness :
  urls_kept two_sites_db
    (main sample_max_offset sample_fromtimestamp sample_ignore sample_fs
       sample_clock no_args two_sites_db).2
  ∧ (∀ k, is_Some (website_url_stats two_sites_db !! k) →
          is_Some (website_url_stats
                     (main sample_max_offset sample_fromtimestamp
                        sample_ignore sample_fs sample_clock no_args
                        two_sites_db).2 !! k))
  ∧ (∀ k, is_Some (file_tracking two_sites_db !! k) →
          is_Some (file_tracking
                     (main sample_max_offset sample_fromtimestamp
                        sample_ignore sample_fs sample_clock no_args
                        two_sites_db).2 !! k)).
Proof.
  apply (main_without_force_deletes_nothing sample_max_offset
           sample_fromtimestamp sample_ignore sample_fs sample_clock no_args
           two_sites_db).
  reflexivity.
Defined.

Lemma parse_pos_sider_stops_at_end_sider_witness :
  parse_pos_sider sample_max_offset sample_ignore
    (u "BEGIN_SIDER 1" ++ [10%N] ++ u "/a 1 2 3 4" ++ [10%N]
     ++ u "END_SIDER" ++ [10%N] ++ u "/b 1 2 x 4" ++ [10%N; 255%N]) 0
  = parse_pos_sider sample_max_offset sample_ignore
      (u "BEGIN_SIDER 1" ++ [10%N] ++ u "/a 1 2 3 4" ++ [10%N]
       ++ u "END_SIDER" ++ [10%N]) 0.
Proof.
  apply (parse_pos_sider_stops_at_end_sider sample_max_offset sample_ignore
           (u "BEGIN_SIDER 1" ++ [10%N] ++ u "/a 1 2 3 4")
           (u "/b 1 2 x 4" ++ [10%N; 255%N]) 0).
  by vm_compute.
Defined.

(** The sample report has 273 bytes: the offset 100000 is past its end
    and gives no record, the offset 2^44 is past the largest offset as
    well and is refused. *)
Lemma parse_pos_sider_past_end_witness :
  parse_pos_sider sample_max_offset sample_ignore sample_report 100000
  = OK []
  ∧ parse_pos_sider sample_max_offset sample_ignore sample_report (2 ^ 44)
    = Raise OSError.
Proof.
  split.
  - apply (parse_pos_sider_past_end sample_max_offset sample_ignore
             sample_report 100000); [by vm_compute|].
    left. by vm_compute.
  - apply (parse_pos_sider_past_end sample_max_offset sample_ignore
             sample_report (2 ^ 44)); [by vm_compute|].
    split; by vm_compute.
Defined.

Lemma main_returns_early_witness :
  main sample_max_offset sample_fromtimestamp sample_ignore sample_fs
    sample_clock (mkArgs None None true (Some (u "unknown.org")))
    two_sites_db
  = (OK tt, two_sites_db).
Proof.
  apply (main_returns_early sample_max_offset sample_fromtimestamp
           sample_ignore sample_fs sample_clock
           (mkArgs None None true (Some (u "unknown.org"))) two_sites_db).
  right. split; by vm_compute.
Defined.

(** Two forced runs that complete, one on a store with stale rows and
    one on a store without rows: both leave the two URLs of the report
    with the counters of the report, and nothing of the stale rows. *)
Lemma forced_run_recomputes_witness :
  ((main sample_max_offset sample_fromtimestamp sample_ignore good_fs
      sample_clock force_only stale_db).1
   = (main sample_max_offset sample_fromtimestamp sample_ignore good_fs
        sample_clock force_only sample_db).1
   ∧ same_aggregates
       (main sample_max_offset sample_fromtimestamp sample_ignore good_fs
          sample_clock force_only stale_db).2
       (main sample_max_offset sample_fromtimestamp sample_ignore good_fs
          sample_clock force_only sample_db).2
   ∧ same_aggregates
       (main sample_max_offset sample_fromtimestamp sample_ignore good_fs
          sample_clock force_only
          (main sample_max_offset sample_fromtimestamp sample_ignore good_fs
             sample_clock force_only stale_db).2).2
       (main sample_max_offset sample_fromtimestamp sample_ignore good_fs
          sample_clock force_only stale_db).2)
  ∧ (main sample_max_offset sample_fromtimestamp sample_ignore good_fs
       sample_clock force_only stale_db).1 = OK tt
  ∧ bucket
      (main sample_max_offset sample_fromtimestamp sample_ignore good_fs
         sample_clock force_only stale_db).2
      7 (u "Some Page") 1 2024 3
    = Some (Stats 10 3 4)
  ∧ bucket
      (main sample_max_offset sample_fromtimestamp sample_ignore good_fs
         sample_clock force_only stale_db).2
      7 (u "index.php") 1 2024 3
    = Some (Stats 7 2 1)
  ∧ bucket
      (main sample_max_offset sample_fromtimestamp sample_ignore good_fs
         sample_clock force_only stale_db).2
      7 (u "Some Page") 2 2024 3
    = None
  ∧ select_url_id
      (website_url
         (main sample_max_offset sample_fromtimestamp sample_ignore good_fs
            sample_clock force_only stale_db).2)
      7 (u "Old Page")
    = None.
Proof.
  split.
  - apply (forced_run_recomputes sample_max_offset sample_fromtimestamp
             sample_ignore good_fs sample_clock force_only stale_db
             sample_db); reflexivity.
  - repeat split; by vm_compute.
Defined.
